(** * Weather Markov-chain predictor: the TypeScript front end, embedded

    A shallow embedding of the React front end of the weather predictor
    (the [useMarkovChain] and [useWeatherAPI] hooks, [App], [DataFetcher],
    [SimulationControl], [StatisticsPanel], [WeatherTimeline],
    [StateTransitionDiagram], [WASMErrorBoundary]) and the properties its
    specification states about it, with further properties of the code.

    JavaScript numbers are IEEE 754 binary64 values, so they are Rocq's
    primitive floats; objects used as string-keyed maps are stdpp [gmap]s;
    React state is a record and a handler is a program in a small
    state-and-exception monad, so that [try]/[catch]/[finally] read as in
    the source. *)

From Stdlib Require Import Floats SpecFloat ZArith Lia Ascii String List.
From Stdlib Require Import DecimalString.
From stdpp Require Import base option gmap strings.
Import ListNotations.

#[local] Open Scope string_scope.
#[local] Open Scope Z_scope.

(* ===================================================================== *)
(** * Part I: the embedding *)
(* ===================================================================== *)

(** ** The JavaScript that the components rely on *)

Module JS.

(** A [number] is a binary64 float; [NaN], the infinities and the two zeros
    are values of it. *)
Definition number : Type := float.

(** [ToBoolean] on a number: [0], [-0] and [NaN] are falsy. *)
Definition truthy (x : number) : bool :=
  negb (PrimFloat.is_zero x || PrimFloat.is_nan x).

(** [v || d] where [v] is a number or [undefined] ([None]). *)
Definition or_else (v : option number) (d : number) : number :=
  match v with
  | Some x => if truthy x then x else d
  | None => d
  end.

(** The global [isNaN] on a number. *)
Definition isNaN (x : number) : bool := PrimFloat.is_nan x.

(** The Number value of a mathematical integer (round to nearest, ties to
    even, overflow to an infinity); exact below [2^53]. *)
Definition Number_of_Z (z : Z) : number :=
  SF2Prim (binary_normalize prec emax z 0 false).

(** The length of an array as a number. *)
Definition Number_of_nat (n : nat) : number := Number_of_Z (Z.of_nat n).

(** Decimal digits of a natural number, ["0"] for zero. *)
Definition digits (n : Z) : string :=
  NilZero.string_of_uint (N.to_uint (Z.to_N n)).

(** [n] copies of the character ["0"]. *)
Fixpoint zeros (n : nat) : string :=
  match n with
  | O => EmptyString
  | S k => String "0"%char (zeros k)
  end.

(** *** [Number.prototype.toString] at and above [10^21]

    The value is an integer [x]. ECMAScript picks the least number [k] of
    digits and a [k]-digit integer [s] with [s * 10^(n-k)] rounding to [x],
    the closest such [s], and prints it in exponent notation. *)

Definition roundtrips (x c : Z) : bool :=
  PrimFloat.eqb (Number_of_Z c) (Number_of_Z x).

(** The candidate with [k] digits, if one rounds to [x]: the two multiples
    of [10^p] around [x], the closer first, the even one on a tie. *)
Definition candidate (x : Z) (p : Z) : option Z :=
  let lo := x / 10 ^ p in
  let hi := lo + 1 in
  let dlo := x - lo * 10 ^ p in
  let dhi := hi * 10 ^ p - x in
  let first_lo := (dlo <? dhi) || ((dlo =? dhi) && Z.even lo) in
  let c1 := if first_lo then lo else hi in
  let c2 := if first_lo then hi else lo in
  if roundtrips x (c1 * 10 ^ p) then Some c1
  else if roundtrips x (c2 * 10 ^ p) then Some c2
  else None.

Fixpoint shortest (x : Z) (d : Z) (k : Z) (fuel : nat) : Z * Z :=
  match fuel with
  | O => (x, 0)
  | S fuel' =>
      match candidate x (d - k) with
      | Some s => (s, d - k)
      | None => shortest x d (k + 1) fuel'
      end
  end.

(** Removes the zeros at the end of [s * 10^p], raising the exponent. *)
Fixpoint strip_zeros (s p : Z) (fuel : nat) : Z * Z :=
  match fuel with
  | O => (s, p)
  | S fuel' =>
      if (0 <? s) && (s mod 10 =? 0) then strip_zeros (s / 10) (p + 1) fuel'
      else (s, p)
  end.

Definition toString_exponent (x : Z) : string :=
  let d := Z.of_nat (String.length (digits x)) in
  let '(s0, p0) := shortest x d 1 (Z.to_nat d) in
  let '(s, p) := strip_zeros s0 p0 (Z.to_nat d) in
  let ds := digits s in
  let e := Z.of_nat (String.length ds) - 1 + p in
  match ds with
  | EmptyString => EmptyString
  | String c EmptyString => String c ("e+" ++ digits e)
  | String c rest => String c ("." ++ rest ++ "e+" ++ digits e)
  end.

(** *** [Number.prototype.toFixed]

    [x.toFixed(f)]: a NaN or an infinity prints as its name; a magnitude of
    [10^21] or more prints as [toString] does; otherwise the integer [n]
    nearest to [|x| * 10^f] (the larger on a tie) is printed with [f] digits
    after the point, after a minus sign when [x < 0]. *)

(** [|x| * 10^f] rounded half up, for the finite value [m * 2^e]. *)
Definition scaled (m : positive) (e : Z) (f : nat) : Z :=
  let t := Z.pos m * 10 ^ Z.of_nat f in
  if 0 <=? e then t * 2 ^ e
  else (2 * t + 2 ^ (- e)) / 2 ^ (- e + 1).

(** [n] with a point before its last [f] digits. *)
Definition with_point (n : Z) (f : nat) : string :=
  let m := digits n in
  match f with
  | O => m
  | S _ =>
      let k := String.length m in
      let m' := if (k <=? f)%nat then zeros (f + 1 - k) ++ m else m in
      let k' := String.length m' in
      String.substring 0 (k' - f) m' ++ "." ++ String.substring (k' - f) f m'
  end.

Definition toFixed (f : nat) (x : number) : string :=
  match Prim2SF x with
  | S754_nan => "NaN"
  | S754_infinity false => "Infinity"
  | S754_infinity true => "-Infinity"
  | S754_zero _ => with_point 0 f
  | S754_finite s m e =>
      let sign := if s then "-" else "" in
      if (0 <=? e) && (10 ^ 21 <=? Z.pos m * 2 ^ e)
      then sign ++ toString_exponent (Z.pos m * 2 ^ e)
      else sign ++ with_point (scaled m e f) f
  end.

(** *** [parseInt(text, 10)] *)

(** A string stands for its UTF-8 encoding. White space and line
    terminators that [parseInt] skips: among the ASCII characters, TAB,
    LF, VT, FF, CR and the space. *)
Definition is_space (c : ascii) : bool :=
  let n := nat_of_ascii c in
  ((9 <=? n) && (n <=? 13) || (n =? 32))%nat.

(** U+00A0, the no-break space, in two bytes. *)
Definition is_space2 (c d : ascii) : bool :=
  ((nat_of_ascii c =? 194) && (nat_of_ascii d =? 160))%nat.

(** In three bytes: U+1680; U+2000 to U+200A, the line and paragraph
    separators U+2028 and U+2029, U+202F; U+205F; U+3000; and U+FEFF. *)
Definition is_space3 (c d e : ascii) : bool :=
  let '(c, d, e) := (nat_of_ascii c, nat_of_ascii d, nat_of_ascii e) in
  ((c =? 225) && (d =? 154) && (e =? 128)
   || (c =? 226) && (d =? 128)
      && ((128 <=? e) && (e <=? 138) || (e =? 168) || (e =? 169) || (e =? 175))
   || (c =? 226) && (d =? 129) && (e =? 159)
   || (c =? 227) && (d =? 128) && (e =? 128)
   || (c =? 239) && (d =? 187) && (e =? 191))%nat.

Definition digit_value (c : ascii) : option Z :=
  let n := nat_of_ascii c in
  if ((48 <=? n) && (n <=? 57))%nat then Some (Z.of_nat n - 48) else None.

Fixpoint skip_spaces (s : string) : string :=
  match s with
  | String c rest =>
      if is_space c then skip_spaces rest
      else
        match rest with
        | String d rest2 =>
            if is_space2 c d then skip_spaces rest2
            else
              match rest2 with
              | String e rest3 => if is_space3 c d e then skip_spaces rest3 else s
              | EmptyString => s
              end
        | EmptyString => s
        end
  | EmptyString => s
  end.

(** The value of the longest prefix of decimal digits, [None] when the
    prefix is empty. [acc] is the value read so far, if any digit was. *)
Fixpoint leading_digits (s : string) (acc : option Z) : option Z :=
  match s with
  | String c rest =>
      match digit_value c with
      | Some d => leading_digits rest (Some (10 * default 0 acc + d))
      | None => acc
      end
  | EmptyString => acc
  end.

Definition parseInt (text : string) : number :=
  let s := skip_spaces text in
  let '(negative, body) :=
    match s with
    | String "-"%char rest => (true, rest)
    | String "+"%char rest => (false, rest)
    | _ => (false, s)
    end in
  match leading_digits body None with
  | None => PrimFloat.nan
  | Some 0 => if negative then (- 0)%float else 0%float
  | Some n => Number_of_Z (if negative then - n else n)
  end.

(** *** Exceptions and state

    What a JavaScript statement can throw here: a string, an [Error] with
    its message, or something else. *)
Inductive value : Type :=
| VString (s : string)
| VError (message : string)
| VOther.

(** The completion of a statement: it returns, or it throws. A rejected
    promise is a [Throw] at the [await]. *)
Inductive completion (A : Type) : Type :=
| Normal (a : A)
| Throw (reason : value).
Arguments Normal {A} a.
Arguments Throw {A} reason.

(** A program over a mutable world [W]. *)
Definition M (W A : Type) : Type := W -> completion A * W.

#[global] Instance M_ret {W} : MRet (M W) :=
  fun A (a : A) w => (Normal a, w).

#[global] Instance M_bind {W} : MBind (M W) :=
  fun A B (k : A -> M W B) (c : M W A) w =>
    match c w with
    | (Normal a, w') => k a w'
    | (Throw v, w') => (Throw v, w')
    end.

Definition throw {W A} (v : value) : M W A := fun w => (Throw v, w).

(** Resuming with a completion that is already known, such as the outcome
    of an awaited promise. *)
Definition settle {W A} (r : completion A) : M W A := fun w => (r, w).

(** An assignment to the world, such as a React state setter. *)
Definition modify {W} (f : W -> W) : M W unit := fun w => (Normal tt, f w).

(** Reading the world, such as the state a handler closes over. *)
Definition gets {W A} (f : W -> A) : M W A := fun w => (Normal (f w), w).

(** [try { body } catch (err) { handler err }] *)
Definition try_catch {W A} (body : M W A) (handler : value -> M W A) : M W A :=
  fun w =>
    match body w with
    | (Normal a, w') => (Normal a, w')
    | (Throw v, w') => handler v w'
    end.

(** [try { body } finally { final }]: [final] runs either way, and the
    completion of [body] stands unless [final] throws. *)
Definition try_finally {W A} (body : M W A) (final : M W unit) : M W A :=
  fun w =>
    let '(r, w') := body w in
    match final w' with
    | (Normal _, w'') => (r, w'')
    | (Throw v, w'') => (Throw v, w'')
    end.

(** [err instanceof Error ? err.message : fallback] *)
Definition message_or (err : value) (fallback : string) : string :=
  match err with
  | VError m => m
  | _ => fallback
  end.

(** *** [Math.max], [Math.min], powers of two, strings, [reduce] *)

(** A zero with the sign bit set. *)
Definition is_negative_zero (x : number) : bool :=
  match Prim2SF x with
  | S754_zero true => true
  | _ => false
  end.

(** [Math.max(x, y)]: NaN if either is NaN; [+0] is above [-0]. *)
Definition Math_max (x y : number) : number :=
  if isNaN x || isNaN y then PrimFloat.nan
  else if PrimFloat.ltb x y then y
  else if PrimFloat.ltb y x then x
  else if is_negative_zero x then y
  else x.

(** [Math.min(x, y)]: NaN if either is NaN; [-0] is below [+0]. *)
Definition Math_min (x y : number) : number :=
  if isNaN x || isNaN y then PrimFloat.nan
  else if PrimFloat.ltb x y then x
  else if PrimFloat.ltb y x then y
  else if is_negative_zero x then x
  else y.

(** [2 ** n] for a count [n]: the doubling is exact, up to the overflow
    to [Infinity]. *)
Fixpoint pow2 (n : nat) : number :=
  match n with
  | O => 1%float
  | S k => (2 * pow2 k)%float
  end.

(** [ToBoolean] on a string or [null]/[undefined]: the empty string is
    falsy. *)
Definition truthy_string (s : option string) : bool :=
  match s with
  | Some s => negb (String.eqb s "")
  | None => false
  end.

(** [l.reduce(f)] with no initial value: a [TypeError] on the empty
    array. *)
Definition reduce {A} (f : A -> A -> A) (l : list A) : completion A :=
  match l with
  | [] => Throw (VError "Reduce of empty array with no initial value")
  | x :: l' => Normal (fold_left f l' x)
  end.

(** The names every object literal inherits from [Object.prototype];
    what they name are functions, and for [__proto__] the prototype
    itself. *)
Definition Object_prototype_names : list string :=
  ["constructor"; "__defineGetter__"; "__defineSetter__"; "hasOwnProperty";
   "__lookupGetter__"; "__lookupSetter__"; "isPrototypeOf";
   "propertyIsEnumerable"; "toString"; "valueOf"; "__proto__";
   "toLocaleString"].

(** The own value of the key [k] in an object literal. *)
Fixpoint own {A} (o : list (string * A)) (k : string) : option A :=
  match o with
  | [] => None
  | (k', v) :: o' => if String.eqb k' k then Some v else own o' k
  end.

(** What [o[k]] is for an object literal [o]: the own value of the key,
    a member of [Object.prototype], or [undefined]. *)
Inductive property (A : Type) : Type :=
| Own (v : A)
| Inherited
| Undefined.

Arguments Own {A}.
Arguments Inherited {A}.
Arguments Undefined {A}.

Definition member {A} (o : list (string * A)) (k : string) : property A :=
  match own o k with
  | Some v => Own v
  | None =>
      if existsb (String.eqb k) Object_prototype_names then Inherited
      else Undefined
  end.

End JS.

(** ** hooks/useMarkovChain.ts *)

Module UseMarkovChain.
Import JS.

Record MatrixData : Type := {
  matrix : list number;
  states : list string;
  rows : number;
  cols : number }.

Record SimulationDay : Type := {
  day : number;
  state : string;
  timestamp : number }.

Record StateProbabilities : Type := {
  sunny : number;
  rainy : number;
  cloudy : number }.

Record Statistics : Type := {
  steady_state : StateProbabilities;
  distribution : StateProbabilities;
  average_streaks : StateProbabilities }.

(** The values of these interfaces as the objects they are at run time,
    where the types are erased: a field is a key of the object. *)
Definition StateProbabilities_object (p : StateProbabilities) : gmap string number :=
  {[ "sunny" := sunny p; "rainy" := rainy p; "cloudy" := cloudy p ]}.

Definition Statistics_object (r : Statistics) : gmap string (gmap string number) :=
  {[ "steady_state" := StateProbabilities_object (steady_state r);
     "distribution" := StateProbabilities_object (distribution r);
     "average_streaks" := StateProbabilities_object (average_streaks r) ]}.

(** The names of the parameters of [WASMModule.run_simulation] and of
    [runSimulation], as the interface declares them. *)
Definition run_simulation_parameters : list string := ["days"; "initialState"].

(** What [get_statistics] returns is declared [any], and the cast of the
    wrapper is erased: the report is the run-time object it is. The
    objects considered have objects of numbers in their fields; which
    fields they have is not fixed here. *)
Abbreviation Report := (gmap string (gmap string number)).

(** An entry point of the WASM module that was invoked. *)
Inductive Call : Type :=
| Default
| InitMarkovEngine
| ProcessWeatherData (jsonStr : string)
| RunSimulation (days : number) (initialState : string)
| GetStatistics.

(** Whether a completion is a [Throw]. *)
Definition threw {A} (r : completion A) : bool :=
  match r with
  | Normal _ => false
  | Throw _ => true
  end.

Section Hook.

(** The state the Rust engine keeps behind the WASM boundary. *)
Variable Engine : Type.

(** [interface WASMModule]; the results of the first two are typed as
    the wrappers cast them. *)
Record WASMModule : Type := {
  init_markov_engine : M Engine unit;
  process_weather_data : string -> M Engine MatrixData;
  run_simulation : number -> string -> M Engine (list SimulationDay);
  get_statistics : M Engine Report }.

(** What [import("../wasm/rust_core.js")] resolves to: the initialiser
    [default] and the exports. *)
Record RustCore : Type := {
  default : M Engine unit;
  exports : WASMModule }.

(** The hook's React state. An [Error] is kept as its message. *)
Record Hook : Type := {
  wasmModule : option WASMModule;
  isReady : bool;
  error : option string }.

(** The hook's state, the engine, and the log of the calls made into the
    module, each with whether it threw. *)
Record World : Type := {
  hook : Hook;
  engine : Engine;
  calls : list (Call * bool) }.

Definition initial (e : Engine) : World :=
  {| hook := {| wasmModule := None; isReady := false; error := None |};
     engine := e;
     calls := [] |}.

Definition setWasmModule (m : option WASMModule) : M World unit :=
  modify (fun w =>
    {| hook := {| wasmModule := m; isReady := isReady (hook w); error := error (hook w) |};
       engine := engine w; calls := calls w |}).

Definition setIsReady (b : bool) : M World unit :=
  modify (fun w =>
    {| hook := {| wasmModule := wasmModule (hook w); isReady := b; error := error (hook w) |};
       engine := engine w; calls := calls w |}).

Definition setError (e : option string) : M World unit :=
  modify (fun w =>
    {| hook := {| wasmModule := wasmModule (hook w); isReady := isReady (hook w); error := e |};
       engine := engine w; calls := calls w |}).

(** A call into the module: it runs on the engine and is logged. *)
Definition invoke {A} (c : Call) (f : M Engine A) : M World A :=
  fun w =>
    let '(r, e) := f (engine w) in
    (r, {| hook := hook w; engine := e; calls := calls w ++ [(c, threw r)] |}).

(** [await import(...)]: the module, or the rejection of the import. *)
Definition awaitImport (imported : completion RustCore) : M World RustCore :=
  settle imported.

(** [loadWASM] of the mount effect. [mounted] is the flag as the function
    finds it when it reads it. *)
Definition loadWASM (imported : completion RustCore) (mounted : bool) : M World unit :=
  try_catch
    (wasm ← awaitImport imported;
     invoke Default (default wasm);;
     invoke InitMarkovEngine (init_markov_engine (exports wasm));;
     if mounted
     then setWasmModule (Some (exports wasm));; setIsReady true;; setError None
     else mret tt)
    (fun err =>
       if mounted
       then setError (Some (message_or err "Failed to load WASM module"));;
            setIsReady false
       else mret tt).

(** [typeof err === "string" ? err : err instanceof Error ? err.message : fallback] *)
Definition errorMessage (err : value) (fallback : string) : string :=
  match err with
  | VString s => s
  | VError m => m
  | VOther => fallback
  end.

(** The three wrappers. [h] is the state the callback closed over
    ([useCallback] with [wasmModule] and [isReady] as dependencies); the
    guard is [!wasmModule || !isReady]. *)
Definition processData (h : Hook) (jsonData : string) : M World MatrixData :=
  match wasmModule h with
  | None => throw (VError "WASM module not ready")
  | Some wasm =>
      if negb (isReady h) then throw (VError "WASM module not ready")
      else
        try_catch
          (invoke (ProcessWeatherData jsonData) (process_weather_data wasm jsonData))
          (fun err => throw (VError (errorMessage err "Failed to process weather data")))
  end.

Definition runSimulation (h : Hook) (days : number) (initialState : string)
  : M World (list SimulationDay) :=
  match wasmModule h with
  | None => throw (VError "WASM module not ready")
  | Some wasm =>
      if negb (isReady h) then throw (VError "WASM module not ready")
      else
        try_catch
          (invoke (RunSimulation days initialState) (run_simulation wasm days initialState))
          (fun err => throw (VError (errorMessage err "Failed to run simulation")))
  end.

Definition getStatistics (h : Hook) : M World Report :=
  match wasmModule h with
  | None => throw (VError "WASM module not ready")
  | Some wasm =>
      if negb (isReady h) then throw (VError "WASM module not ready")
      else
        try_catch
          (invoke GetStatistics (get_statistics wasm))
          (fun err => throw (VError (errorMessage err "Failed to get statistics")))
  end.

(** The hook state is not one in which the module can be used: the guard
    [!wasmModule || !isReady] of the wrappers holds. *)
Definition not_ready (h : Hook) : Prop :=
  wasmModule h = None \/ isReady h = false.

(** What a call through a wrapper amounts to when the guard lets it
    pass: the engine function runs, the call is logged, and what the
    function throws is wrapped in an [Error]. *)
Definition forwarded {A} (c : Call) (f : M Engine A) (fallback : string)
  (w : World) : completion A * World :=
  let '(r, e) := f (engine w) in
  (match r with
   | Normal a => Normal a
   | Throw err => Throw (VError (errorMessage err fallback))
   end,
   {| hook := hook w; engine := e; calls := calls w ++ [(c, threw r)] |}).

(** The life of a mounted hook. [run w hs] says that the world [w] is
    reached from the mount by the load effect and by calls of the wrappers,
    and that [hs] are the hook states the renders on the way exposed: a
    wrapper is called with one of them, its closure being the current one
    or a stale one. *)
Inductive run : World -> list Hook -> Prop :=
| run_mount (e : Engine) :
    run (initial e) [hook (initial e)]
| run_load w hs imported mounted :
    run w hs ->
    run (snd (loadWASM imported mounted w))
        (hook (snd (loadWASM imported mounted w)) :: hs)
| run_processData w hs h jsonData :
    run w hs -> In h hs ->
    run (snd (processData h jsonData w)) hs
| run_runSimulation w hs h days initialState :
    run w hs -> In h hs ->
    run (snd (runSimulation h days initialState w)) hs
| run_getStatistics w hs h :
    run w hs -> In h hs ->
    run (snd (getStatistics h w)) hs.

End Hook.

(** The entry points that the wrappers call, as opposed to those of the
    load effect. *)
Definition is_operation (c : Call) : bool :=
  match c with
  | Default | InitMarkovEngine => false
  | ProcessWeatherData _ | RunSimulation _ _ | GetStatistics => true
  end.

(** In a log, every operation comes after an [init_markov_engine] that
    returned. *)
Definition after_init (log : list (Call * bool)) : Prop :=
  forall (before rest : list (Call * bool)) c b,
    log = (before ++ (c, b) :: rest)%list ->
    is_operation c = true ->
    In (InitMarkovEngine, false) before.

Arguments run {Engine}.
Arguments run_mount {Engine}.
Arguments run_load {Engine}.
Arguments run_processData {Engine}.
Arguments run_runSimulation {Engine}.
Arguments run_getStatistics {Engine}.
Arguments not_ready {Engine}.
Arguments forwarded {Engine A}.
Arguments init_markov_engine {Engine}.
Arguments process_weather_data {Engine}.
Arguments run_simulation {Engine}.
Arguments get_statistics {Engine}.
Arguments default {Engine}.
Arguments exports {Engine}.
Arguments wasmModule {Engine}.
Arguments isReady {Engine}.
Arguments error {Engine}.
Arguments hook {Engine}.
Arguments engine {Engine}.
Arguments calls {Engine}.
Arguments initial {Engine}.
Arguments invoke {Engine A}.
Arguments loadWASM {Engine}.
Arguments processData {Engine}.
Arguments runSimulation {Engine}.
Arguments getStatistics {Engine}.

(** The invariant of a run: the current hook state is among the exposed
    ones; an exposed state that is ready was made so after
    [init_markov_engine] returned; and the log has every operation after
    such a return. *)
Definition settled_log {Engine} (w : World Engine) (hs : list (Hook Engine)) : Prop :=
  In (hook w) hs /\
  Forall (fun h => isReady h = true -> In (InitMarkovEngine, false) (calls w)) hs /\
  after_init (calls w).

End UseMarkovChain.

(** ** The Trajectory Simulator of the engine *)

Module Simulator.
Import JS.
Import UseMarkovChain.

#[local] Open Scope float_scope.

(** The Rust crate behind [run_simulation] is not among the sources; only
    its TypeScript declaration and its callers are. This module follows
    the Trajectory Simulator of the specification (section 4.4 and the
    "Run simulation" interface of section 6). *)

(** Modelled from the spec: the matrix context of the engine, absent from
    the sources: the ordered state list with one row of probabilities per
    state. *)
Record Chain : Type := {
  chain_states : list string;
  chain_rows : list (list number) }.

(** Modelled from the spec: the state of the engine, absent from the
    sources. The randomness source is the process-level entropy source of
    an unseeded call: [entropy i] is its [i]-th uniform draw from [0, 1)
    and [drawn] counts the draws taken so far. [clock] is the
    simulation-start timestamp. *)
Record Engine : Type := {
  context : option Chain;
  entropy : nat -> number;
  drawn : nat;
  clock : number }.

(** Modelled from the spec: one day in the time unit of the timestamps
    ("day index x 1-day in the chosen time unit"), here seconds. *)
Definition oneDay : number := 86400.

(** Modelled from the spec: the position of a state in the canonical
    state ordering. *)
Fixpoint index_of (s : string) (l : list string) : option nat :=
  match l with
  | [] => None
  | x :: l' => if String.eqb x s then Some O else option_map S (index_of s l')
  end.

(** Modelled from the spec: the row of the matrix that corresponds to the
    state [s]. *)
Definition row_of (c : Chain) (s : string) : list number :=
  match index_of s (chain_states c) with
  | Some i => nth i (chain_rows c) []
  | None => []
  end.

(** Modelled from the spec: inverse-CDF sampling. "Walk the row's
    cumulative probabilities in canonical State order; select the first
    State whose cumulative probability is >= r." *)
Fixpoint pick (row : list number) (names : list string) (acc r : number)
  : option string :=
  match row, names with
  | p :: row', s :: names' =>
      let acc' := acc + p in
      if r <=? acc' then Some s else pick row' names' acc' r
  | _, _ => None
  end.

(** Modelled from the spec: the next state, sampled from the row of the
    current one. Should no cumulative probability reach [r], on which the
    spec is silent, the chain stays where it is. *)
Definition next_state (c : Chain) (current : string) (r : number) : string :=
  match pick (row_of c current) (chain_states c) 0 r with
  | Some s => s
  | None => current
  end.

(** Modelled from the spec: days [k], [k+1], ... of a trajectory, [n] of
    them, from the state [current] of day [k], sampling with the draws
    from the [i]-th on. Each day records its index and the timestamp
    "simulation-start timestamp plus day index x 1-day". *)
Fixpoint walk (c : Chain) (rnd : nat -> number) (start : number)
  (current : string) (k i n : nat) : list SimulationDay :=
  match n with
  | O => []
  | S n' =>
      {| day := Number_of_nat k;
         state := current;
         timestamp := start + Number_of_nat k * oneDay |}
      :: walk c rnd start (next_state c current (rnd i)) (S k) (S i) n'
  end.

(** Modelled from the spec: the horizon as a count of days, an integer
    from 1 to 365. *)
Definition horizon (days : number) : option nat :=
  List.find (fun n => Number_of_nat n =? days) (seq 1 365).

(** Modelled from the spec: the run-simulation operation of the engine.
    It "requires a previously built matrix context", fails "if
    initialState is unknown to the current matrix or days is out of
    bounds", and otherwise returns the trajectory, of which day 0 is the
    starting state and each later day is sampled: [days - 1] draws. The
    errors are strings, as the wrapper expects them of the engine. *)
Definition run_simulation (days : number) (initialState : string)
  : M Engine (list SimulationDay) :=
  fun e =>
    match context e with
    | None => (Throw (VString "No transition matrix has been built"), e)
    | Some c =>
        match index_of initialState (chain_states c), horizon days with
        | None, _ => (Throw (VString "ValidationError: unknown initial state"), e)
        | _, None => (Throw (VString "ValidationError: days out of bounds"), e)
        | Some _, Some n =>
            (Normal (walk c (entropy e) (clock e) initialState 0 (drawn e) n),
             {| context := context e; entropy := entropy e;
                drawn := (drawn e + (n - 1))%nat; clock := clock e |})
        end
    end.

(** Modelled from the spec: the module as the hook sees it, with the
    simulator as its [run_simulation]. Building the matrix and the
    statistics are other components of the engine and are taken as
    given. *)
Definition wasm (process : string -> M Engine MatrixData)
  (statistics : M Engine Report) : WASMModule Engine :=
  {| UseMarkovChain.init_markov_engine := mret tt;
     UseMarkovChain.process_weather_data := process;
     UseMarkovChain.run_simulation := run_simulation;
     UseMarkovChain.get_statistics := statistics |}.

(** The states of a trajectory, day by day. *)
Definition trajectory_states (r : completion (list SimulationDay))
  : completion (list string) :=
  match r with
  | Normal days => Normal (map state days)
  | Throw v => Throw v
  end.

End Simulator.

(** ** The get-statistics operation of the engine *)

Module Aggregator.
Import JS.
Import UseMarkovChain.

(** The Rust function behind [get_statistics] is not among the sources;
    only its TypeScript declaration and the wrapper that calls it are.
    This module follows the "Get statistics" interface of the
    specification (section 6). *)

(** Modelled from the spec: the output of the get-statistics operation,
    absent from the sources: an object with the fields [steady_state],
    [distribution] and [average_streaks], each a map from state names to
    numbers. *)
Definition report (steady_state distribution average_streaks : gmap string number)
  : Report :=
  {[ "steady_state" := steady_state;
     "distribution" := distribution;
     "average_streaks" := average_streaks ]}.

Section Engine.

(** Modelled from the spec: the state of the engine, and the three maps
    that the Steady-State Solver and the Statistics Aggregator compute
    from "the already-built matrix and a chosen (or most recent) simulated
    trajectory", or the error with which they fail. How they are computed
    is left open. *)
Variable Engine : Type.
Variable statistics :
  Engine -> completion (gmap string number * gmap string number * gmap string number).

(** Modelled from the spec: the get-statistics operation. It takes no
    input, does not change the engine, and answers with the report, or
    fails with the error of the computation. *)
Definition get_statistics : M Engine Report :=
  fun e =>
    match statistics e with
    | Normal (steady_state, distribution, average_streaks) =>
        (Normal (report steady_state distribution average_streaks), e)
    | Throw err => (Throw err, e)
    end.

(** Modelled from the spec: the module as the hook sees it, with the
    aggregator as its [get_statistics]; the other operations are taken as
    given. *)
Definition wasm (process : string -> M Engine MatrixData)
  (simulate : number -> string -> M Engine (list SimulationDay)) : WASMModule Engine :=
  {| UseMarkovChain.init_markov_engine := mret tt;
     UseMarkovChain.process_weather_data := process;
     UseMarkovChain.run_simulation := simulate;
     UseMarkovChain.get_statistics := get_statistics |}.

End Engine.

End Aggregator.

(** ** components/SimulationControl.tsx *)

Module SimulationControl.
Import JS.

#[local] Open Scope float_scope.

(** The three [useState] cells. *)
Record State : Type := {
  days : number;
  initialState : string;
  validationError : option string }.

(** The props other than the callback [onSimulate]. *)
Record Props : Type := {
  isSimulating : bool;
  disabled : bool }.

(** The component's state and the calls it made to [onSimulate]. *)
Record World : Type := {
  state : State;
  simulated : list (number * string) }.

Definition initial : World :=
  {| state := {| days := 30; initialState := "Sunny"; validationError := None |};
     simulated := [] |}.

Definition weatherStates : list string := ["Sunny"; "Rainy"; "Cloudy"].

Definition setDays (v : number) : M World unit :=
  modify (fun w =>
    {| state := {| days := v; initialState := initialState (state w);
                   validationError := validationError (state w) |};
       simulated := simulated w |}).

Definition setInitialState (v : string) : M World unit :=
  modify (fun w =>
    {| state := {| days := days (state w); initialState := v;
                   validationError := validationError (state w) |};
       simulated := simulated w |}).

Definition setValidationError (v : option string) : M World unit :=
  modify (fun w =>
    {| state := {| days := days (state w); initialState := initialState (state w);
                   validationError := v |};
       simulated := simulated w |}).

(** The prop [onSimulate]: the call is recorded. *)
Definition onSimulate (d : number) (s : string) : M World unit :=
  modify (fun w => {| state := state w; simulated := simulated w ++ [(d, s)] |}).

(** [text] is [event.target.value]. *)
Definition handleDaysChange (text : string) : M World unit :=
  let value := parseInt text in
  setDays value;;
  if isNaN value then setValidationError (Some "Please enter a valid number")
  else if value <? 1 then setValidationError (Some "Days must be at least 1")
  else if 365 <? value then setValidationError (Some "Days cannot exceed 365")
  else setValidationError None.

Definition handleInitialStateChange (value : string) : M World unit :=
  setInitialState value.

Definition handleRunSimulation : M World unit :=
  d ← gets (fun w => days (state w));
  s ← gets (fun w => initialState (state w));
  if (d <? 1) || (365 <? d)
  then setValidationError (Some "Days must be between 1 and 365")
  else (setValidationError None;; onSimulate d s).

Definition isDisabled (p : Props) (st : State) : bool :=
  disabled p || isSimulating p || bool_decide (validationError st <> None).

(** The options of the initial-state [select]. *)
Definition initialStateOptions : list string := map (fun s => s) weatherStates.

(** A click on the button: a disabled button does not run its handler. *)
Definition click (p : Props) : M World unit :=
  st ← gets state;
  if isDisabled p st then mret tt else handleRunSimulation.

(** What the user can do to the rendered component. *)
Inductive Event : Type :=
| ChangeDays (text : string)
| ChangeInitialState (value : string)
| Click (p : Props).

Definition dispatch (e : Event) : M World unit :=
  match e with
  | ChangeDays text => handleDaysChange text
  | ChangeInitialState value => handleInitialStateChange value
  | Click p => click p
  end.

(** A [select] yields the value of one of its options. *)
Definition possible (e : Event) : Prop :=
  match e with
  | ChangeInitialState value => In value initialStateOptions
  | _ => True
  end.

Definition interact (es : list Event) (w : World) : World :=
  fold_left (fun w e => snd (dispatch e w)) es w.

End SimulationControl.

(** ** components/StatisticsPanel.tsx *)

Module StatisticsPanel.
Import JS.

#[local] Open Scope float_scope.

(** [interface Statistics] of the panel; [Record<string, number>] is a
    map from own keys to numbers. *)
Record Statistics : Type := {
  distribution : gmap string number;
  steadyState : gmap string number;
  averageStreaks : option (gmap string number) }.

Definition stateColors : list (string * string) :=
  [("Sunny", "#FCD34D"); ("Rainy", "#3B82F6"); ("Cloudy", "#9CA3AF")].

(** [o[k]] for an object with the own entries [o]: the own value, a
    member of [Object.prototype], which every plain object inherits, or
    [undefined]. *)
Definition lookup (o : gmap string number) (k : string) : property number :=
  match o !! k with
  | Some v => Own v
  | None =>
      if existsb (String.eqb k) Object_prototype_names then Inherited
      else Undefined
  end.

(** What [calculateAverageStreak] returns: a number, or, the types being
    erased, a member of [Object.prototype]. *)
Inductive Streak : Type :=
| Days (v : number)
| Member.

Definition is_member (streak : Streak) : bool :=
  match streak with
  | Days _ => false
  | Member => true
  end.

(** An inherited member is truthy, and the first branch returns it. As
    [selfProb] it is not [> 0]: it is a function, or the prototype, whose
    number value is NaN. *)
Definition calculateAverageStreak (statistics : Statistics) (state : string) : Streak :=
  let estimate :=
    (* Estimate based on self-transition probability *)
    match lookup (steadyState statistics) state with
    | Own v =>
        let selfProb := or_else (Some v) 0 in
        if 0 <? selfProb then 1 / (1 - selfProb) else 1
    | Inherited => 1
    | Undefined => 1
    end in
  match averageStreaks statistics with
  | Some streaks =>
      match lookup streaks state with
      | Own v => if truthy v then Days v else Days estimate
      | Inherited => Member
      | Undefined => Days estimate
      end
  | None => Days estimate
  end.

(** [avgStreak.toFixed(2)]: a [TypeError] when [avgStreak] is not a
    number. *)
Definition streakText (statistics : Statistics) (state : string) : completion string :=
  match calculateAverageStreak statistics state with
  | Days v => Normal (toFixed 2 v)
  | Member => Throw (VError "avgStreak.toFixed is not a function")
  end.

(** "Expected Consecutive Days": one card per own key of [steadyState],
    with the text [avgStreak.toFixed(2)]; the render throws when one of
    them does. *)
Definition expectedConsecutiveDays (statistics : Statistics)
  : completion (gmap string string) :=
  let streaks :=
    map_imap (fun state _ => Some (calculateAverageStreak statistics state))
      (steadyState statistics) in
  if bool_decide (map_Forall (fun _ streak => is_member streak = false) streaks)
  then Normal (omap (fun streak =>
                       match streak with
                       | Days v => Some (toFixed 2 v)
                       | Member => None
                       end) streaks)
  else Throw (VError "avgStreak.toFixed is not a function").

(** A run-time object with objects of numbers in its fields, which is
    what the props are once the types are erased. *)
Abbreviation object := (gmap string (gmap string number)).

(** The fields the panel reads from its [statistics] prop, in the order it
    reads them: [Object.entries(statistics.distribution)], then
    [Object.entries(statistics.steadyState)], which throw a [TypeError] on
    [undefined], and [statistics.averageStreaks], which may be absent. *)
Definition readStatistics (o : object) : completion Statistics :=
  match o !! "distribution" with
  | None => Throw (VError "Cannot convert undefined or null to object")
  | Some d =>
      match o !! "steadyState" with
      | None => Throw (VError "Cannot convert undefined or null to object")
      | Some s =>
          Normal {| distribution := d; steadyState := s;
                    averageStreaks := o !! "averageStreaks" |}
      end
  end.

(** "Most common state": [entries] is [Object.entries(steadyState)], in
    the order of the object's keys, and the reduction keeps [a] when
    [a[1] > b[1]] and takes [b] otherwise. *)
Definition mostCommonState (entries : list (string * number)) : completion string :=
  match reduce (fun a b => if snd b <? snd a then a else b) entries with
  | Normal e => Normal (fst e)
  | Throw v => Throw v
  end.

End StatisticsPanel.

(** ** components/WeatherTimeline.tsx *)

Module WeatherTimeline.
Import JS.

#[local] Open Scope float_scope.

Record SimulationDay : Type := {
  day : number;
  state : string;
  timestamp : option number }.

Definition stateColors : list (string * string) :=
  [("Sunny", "#FCD34D"); ("Rainy", "#3B82F6"); ("Cloudy", "#9CA3AF")].

(** [Object.keys] of an object literal: its keys in the order written. *)
Definition Object_keys {A} (o : list (string * A)) : list string := map fst o.

(** A card of the summary: the count, the state and the percentage text. *)
Record Card : Type := {
  card_state : string;
  count : nat;
  percentage : string }.

Definition summaryStatistics (simulationData : list SimulationDay) : list Card :=
  map
    (fun s =>
       let count :=
         length (List.filter (fun d => String.eqb (state d) s) simulationData) in
       let percentage :=
         toFixed 1
           (Number_of_nat count / Number_of_nat (length simulationData) * 100) in
       {| card_state := s; count := count; percentage := percentage |})
    (Object_keys stateColors).

Definition stateToValue : list (string * number) :=
  [("Sunny", 3); ("Rainy", 2); ("Cloudy", 1)].

(** [valueToState], whose keys are numbers: [valueToState[v]] is found
    when [v] is the number of a key. *)
Definition valueToState (v : number) : option string :=
  if v =? 3 then Some "Sunny"
  else if v =? 2 then Some "Rainy"
  else if v =? 1 then Some "Cloudy"
  else None.

(** The [value] of a datum: a number, or a member of [Object.prototype]
    when the state has the name of one. *)
Inductive Value : Type :=
| Num (v : number)
| Member.

Record ChartDatum : Type := {
  chart_day : number;
  chart_state : string;
  value : Value }.

(** [value: stateToValue[item.state] || 0] *)
Definition chartData (simulationData : list SimulationDay) : list ChartDatum :=
  map
    (fun item =>
       {| chart_day := day item;
          chart_state := state item;
          value :=
            match member stateToValue (state item) with
            | Own v => Num (if truthy v then v else 0)
            | Inherited => Member
            | Undefined => Num 0
            end |})
    simulationData.

(** The label of [CustomYAxisTick] at the value [v], if it draws one. *)
Definition CustomYAxisTick (v : number) : option string :=
  match valueToState v with
  | Some s => if truthy_string (Some s) then Some s else None
  | None => None
  end.

(** The fill of the bar of a datum: [stateColors[entry.state]]. *)
Definition barFill (entry : ChartDatum) : property string :=
  member stateColors (chart_state entry).

End WeatherTimeline.

(** ** hooks/useWeatherAPI.ts *)

Module UseWeatherAPI.
Import JS.

#[local] Open Scope float_scope.

Record ForecastDay : Type := {
  date : string;
  condition_text : string;
  avgtemp_c : number }.

Record WeatherAPIResponse : Type := {
  location_name : string;
  lat : number;
  lon : number;
  forecastday : list ForecastDay }.

(** What [fetch] resolves to, as far as the hook reads it. [json] is how
    the promise of [response.json()] settles. *)
Record Response : Type := {
  ok : bool;
  status : number;
  statusText : string;
  json : completion WeatherAPIResponse }.

Section Fetch.

(** [import.meta.env.VITE_WEATHER_API_KEY], which may be undefined. *)
Variable apiKey : option string.

(** The global [encodeURIComponent]. *)
Variable encodeURIComponent : string -> string.

(** The result of [getDateRange()], which reads the clock: the start and
    the end of the last 365 days. *)
Variable dateRange : string * string.

(** The global [fetch]: how its promise settles, by URL. *)
Variable fetch : string -> completion Response.

(** The address of the history endpoint for a key and a city. *)
Definition historyURL (key city : string) : string :=
  "https://api.weatherapi.com/v1/history.json?key=" ++ key
  ++ "&q=" ++ encodeURIComponent city
  ++ "&dt=" ++ fst dateRange ++ "&end_dt=" ++ snd dateRange.

(** [await fetch(url)]; the world is the list of the URLs requested. *)
Definition awaitFetch (url : string) : M (list string) Response :=
  modify (fun urls : list string => (urls ++ [url])%list);;
  settle (fetch url).

(** [apiKey] is a string where it is interpolated, the first check having
    passed. *)
Definition fetchWeatherData (city : string) : M (list string) WeatherAPIResponse :=
  if negb (truthy_string apiKey)
  then throw (VError
    "Weather API key not found. Please set VITE_WEATHER_API_KEY in your .env file")
  else if negb (truthy_string (Some city))
  then throw (VError "City parameter is required")
  else
    let url := historyURL (default "" apiKey) city in
    response ← awaitFetch url;
    if negb (ok response)
    then
      if PrimFloat.eqb (status response) 401
      then throw (VError "Invalid API key. Please check your VITE_WEATHER_API_KEY")
      else if PrimFloat.eqb (status response) 400
      then throw (VError ("Invalid city name: " ++ city))
      else if PrimFloat.eqb (status response) 429
      then throw (VError "API rate limit exceeded. Please try again later")
      else throw (VError ("Failed to fetch weather data: " ++ statusText response))
    else
      data ← settle (json response);
      mret data.

End Fetch.

(** [retryDelay] of the query; [attemptIndex] is a count. *)
Definition retryDelay (attemptIndex : nat) : number :=
  Math_min (1000 * pow2 attemptIndex) 30000.

End UseWeatherAPI.

(** ** components/DataFetcher.tsx *)

Module DataFetcher.
Import JS.
Import UseMarkovChain.
Import UseWeatherAPI.

(** A prop or a hook function that the component called. *)
Inductive Call : Type :=
| ProcessData (jsonData : string)
| OnDataFetched (matrix : MatrixData)
| Refetch.

(** The two [useState] cells and the calls made. *)
Record World : Type := {
  isProcessing : bool;
  processingError : option string;
  calls : list Call }.

Definition setIsProcessing (b : bool) : M World unit :=
  modify (fun w =>
    {| isProcessing := b; processingError := processingError w; calls := calls w |}).

Definition setProcessingError (e : option string) : M World unit :=
  modify (fun w =>
    {| isProcessing := isProcessing w; processingError := e; calls := calls w |}).

Definition record (c : Call) : M World unit :=
  modify (fun w =>
    {| isProcessing := isProcessing w; processingError := processingError w;
       calls := calls w ++ [c] |}).

Section Component.

(** [JSON.stringify] on a response. *)
Variable JSON_stringify : WeatherAPIResponse -> string.

(** The prop [processData]: how the promise it returns settles. *)
Variable processData : string -> completion MatrixData.

(** The prop [onDataFetched]: whether the callback returns or throws. *)
Variable onDataFetched : MatrixData -> completion unit.

(** What other handlers do to the component while a promise is pending. *)
Variable during : World -> World.

(** [await processData(jsonData)]: the call is made, the function is
    suspended, and it resumes with the settled promise. *)
Definition awaitProcessData (jsonData : string) : M World MatrixData :=
  record (ProcessData jsonData);;
  modify during;;
  settle (processData jsonData).

Definition callOnDataFetched (matrix : MatrixData) : M World unit :=
  record (OnDataFetched matrix);;
  settle (onDataFetched matrix).

Definition refetch : M World unit := record Refetch.

(** [data] is the response the component holds when the handler is
    created. *)
Definition handleProcessData (data : option WeatherAPIResponse) : M World unit :=
  match data with
  | None => mret tt
  | Some d =>
      setIsProcessing true;;
      setProcessingError None;;
      try_finally
        (try_catch
           (let jsonData := JSON_stringify d in
            matrix ← awaitProcessData jsonData;
            callOnDataFetched matrix)
           (fun err =>
              let errorMessage := message_or err "Failed to process weather data" in
              setProcessingError (Some errorMessage)))
        (setIsProcessing false)
  end.

Definition handleFetchData : M World unit :=
  setProcessingError None;;
  refetch.

Definition handleRetry (data : option WeatherAPIResponse) : M World unit :=
  setProcessingError None;;
  match data with
  | Some _ => handleProcessData data
  | None => refetch
  end.

End Component.

Section Rendering.

Variable JSON_stringify : WeatherAPIResponse -> string.
Variable processData : string -> completion MatrixData.
Variable onDataFetched : MatrixData -> completion unit.
Variable during : World -> World.

(** What [useWeatherAPI] returns to the component, the [Error] as its
    message. *)
Record Query : Type := {
  data : option WeatherAPIResponse;
  isLoading : bool;
  error : option string }.

(** The effect on [data]: process the data when there are some and the
    component is not processing. *)
Definition effect (q : Query) : M World unit :=
  processing ← gets isProcessing;
  if bool_decide (data q <> None) && negb processing
  then handleProcessData JSON_stringify processData onDataFetched during (data q)
  else mret tt.

(** [isLoading || isProcessing] *)
Definition showLoading (q : Query) (w : World) : bool :=
  isLoading q || isProcessing w.

(** [error || processingError], as a condition: an [Error] counts, and so
    does a message that is not empty. *)
Definition showError (q : Query) (w : World) : bool :=
  bool_decide (error q <> None) || truthy_string (processingError w).

(** The four parts of the panel, each present or not: the fetch button,
    the loading state with its text, the error state with its title and
    message ([error?.message || processingError]), the success state. *)
Record View : Type := {
  fetchButton : bool;
  loadingState : option string;
  errorState : option (string * option string);
  successState : bool }.

Definition render (q : Query) (w : World) : View :=
  {| fetchButton :=
       bool_decide (data q = None) && negb (showLoading q w) && negb (showError q w);
     loadingState :=
       if showLoading q w
       then Some (if isLoading q then "Fetching weather data..." else "Processing data...")
       else None;
     errorState :=
       if showError q w
       then Some (if bool_decide (error q <> None)
                  then "Failed to fetch data" else "Failed to process data",
                  if truthy_string (error q) then error q else processingError w)
       else None;
     successState :=
       bool_decide (data q <> None) && negb (showLoading q w) && negb (showError q w) |}.

End Rendering.

End DataFetcher.

(** ** App.tsx *)

Module App.
Import JS.
Import UseMarkovChain.

Record Parameters : Type := {
  days : number;
  initialState : string;
  city : string }.

Record SimulationResults : Type := {
  predictions : list SimulationDay;
  parameters : Parameters }.

(** The global state. [historicalData] is of type [any]. *)
Record State : Type := {
  selectedCity : string;
  historicalData : option value;
  transitionMatrix : option MatrixData;
  simulationResults : option SimulationResults;
  isLoading : bool;
  error : option string }.

(** The state and the calls made to [runSimulation]. *)
Record World : Type := {
  state : State;
  calls : list (number * string) }.

Definition initial : World :=
  {| state := {| selectedCity := "Mumbai"; historicalData := None;
                 transitionMatrix := None; simulationResults := None;
                 isLoading := false; error := None |};
     calls := [] |}.

Definition set (f : State -> State) : M World unit :=
  modify (fun w => {| state := f (state w); calls := calls w |}).

Definition setSelectedCity (v : string) : M World unit :=
  set (fun s =>
    {| selectedCity := v; historicalData := historicalData s;
       transitionMatrix := transitionMatrix s;
       simulationResults := simulationResults s;
       isLoading := isLoading s; error := error s |}).

Definition setHistoricalData (v : option value) : M World unit :=
  set (fun s =>
    {| selectedCity := selectedCity s; historicalData := v;
       transitionMatrix := transitionMatrix s;
       simulationResults := simulationResults s;
       isLoading := isLoading s; error := error s |}).

Definition setTransitionMatrix (v : option MatrixData) : M World unit :=
  set (fun s =>
    {| selectedCity := selectedCity s; historicalData := historicalData s;
       transitionMatrix := v;
       simulationResults := simulationResults s;
       isLoading := isLoading s; error := error s |}).

Definition setSimulationResults (v : option SimulationResults) : M World unit :=
  set (fun s =>
    {| selectedCity := selectedCity s; historicalData := historicalData s;
       transitionMatrix := transitionMatrix s;
       simulationResults := v;
       isLoading := isLoading s; error := error s |}).

Definition setIsLoading (v : bool) : M World unit :=
  set (fun s =>
    {| selectedCity := selectedCity s; historicalData := historicalData s;
       transitionMatrix := transitionMatrix s;
       simulationResults := simulationResults s;
       isLoading := v; error := error s |}).

Definition setError (v : option string) : M World unit :=
  set (fun s =>
    {| selectedCity := selectedCity s; historicalData := historicalData s;
       transitionMatrix := transitionMatrix s;
       simulationResults := simulationResults s;
       isLoading := isLoading s; error := v |}).

Definition handleCityChange (city : string) : M World unit :=
  setSelectedCity city;;
  (* Reset state when city changes *)
  setHistoricalData None;;
  setTransitionMatrix None;;
  setSimulationResults None;;
  setError None.

Definition handleDataFetched (matrix : MatrixData) : M World unit :=
  setTransitionMatrix (Some matrix);;
  setError None.

(** The props [App] passes to [SimulationControl], beside the callback. *)
Definition simulationControlProps (s : State) : SimulationControl.Props :=
  {| SimulationControl.isSimulating := isLoading s;
     SimulationControl.disabled := bool_decide (transitionMatrix s = None) |}.

Section Handlers.

(** [runSimulation] of the hook: how the promise it returns settles. *)
Variable runSimulation : number -> string -> completion (list SimulationDay).

(** What other handlers do to the state while a promise is pending. *)
Variable during : World -> World.

(** [await runSimulation(days, initialState)] *)
Definition awaitRunSimulation (days : number) (initialState : string)
  : M World (list SimulationDay) :=
  modify (fun w => {| state := state w; calls := calls w ++ [(days, initialState)] |});;
  modify during;;
  settle (runSimulation days initialState).

(** The callback closes over [transitionMatrix] and [selectedCity] of
    the render that created it; they are read when it starts. *)
Definition handleSimulation (days : number) (initialState : string) : M World unit :=
  transitionMatrix ← gets (fun w => transitionMatrix (state w));
  selectedCity ← gets (fun w => selectedCity (state w));
  match transitionMatrix with
  | None => setError (Some "Please fetch weather data first")
  | Some _ =>
      setIsLoading true;;
      setError None;;
      try_finally
        (try_catch
           (predictions ← awaitRunSimulation days initialState;
            setSimulationResults
              (Some {| predictions := predictions;
                       parameters := {| days := days;
                                        initialState := initialState;
                                        city := selectedCity |} |}))
           (fun err =>
              let errorMessage := message_or err "Failed to run simulation" in
              setError (Some errorMessage)))
        (setIsLoading false)
  end.

End Handlers.

(** The cities offered by the city selector, whose [handleChange] passes
    the chosen value to [handleCityChange]. *)
Definition cities : list string :=
  ["Mumbai"; "Delhi"; "Bangalore"; "Chennai"; "Kolkata"].

(** What [App] renders, part by part: the spinner of the loading WASM
    module, the banner of its error, the main content, and in the main
    content the error banner and the loading overlay. *)
Record View : Type := {
  wasmLoading : bool;
  wasmErrorBanner : option string;
  mainContent : bool;
  errorBanner : option string;
  loadingOverlay : bool;
  simulationControl : option SimulationControl.Props }.

(** [isReady] and [wasmError] are what the hook returns. *)
Definition render (isReady : bool) (wasmError : option string) (s : State) : View :=
  {| wasmLoading := negb isReady && bool_decide (wasmError = None);
     wasmErrorBanner := wasmError;
     mainContent := isReady;
     errorBanner := if isReady && truthy_string (error s) then error s else None;
     loadingOverlay := isReady && isLoading s;
     simulationControl := if isReady then Some (simulationControlProps s) else None |}.

(** What happens to the application: a city is selected, the data
    fetcher delivers a matrix, or a simulation is asked for and its
    promise settles with [outcome] before another handler runs. *)
Inductive Event : Type :=
| SelectCity (city : string)
| DataFetched (matrix : MatrixData)
| Simulate (days : number) (initialState : string)
    (outcome : completion (list SimulationDay)).

Definition dispatch (e : Event) : M World unit :=
  match e with
  | SelectCity city => handleCityChange city
  | DataFetched matrix => handleDataFetched matrix
  | Simulate days initialState outcome =>
      handleSimulation (fun _ _ => outcome) (fun w => w) days initialState
  end.

(** A [select] yields the value of one of its options. *)
Definition possible (e : Event) : Prop :=
  match e with
  | SelectCity city => In city cities
  | _ => True
  end.

Definition interact (es : list Event) (w : World) : World :=
  fold_left (fun w e => snd (dispatch e w)) es w.

End App.

(** ** The notions of the specification *)

Module Spec.
Import JS.

#[local] Open Scope float_scope.

(** The index of a state in the ordered state list of a matrix. *)
Fixpoint position (s : string) (l : list string) : option nat :=
  match l with
  | [] => None
  | x :: l' => if String.eqb x s then Some O else option_map S (position s l')
  end.

(** The self-transition probability of a state: the diagonal entry of the
    transition matrix, which [MatrixData] holds flattened row by row. *)
Definition selfTransition (m : UseMarkovChain.MatrixData) (s : string)
  : option number :=
  let n := length (UseMarkovChain.states m) in
  match position s (UseMarkovChain.states m) with
  | Some i => nth_error (UseMarkovChain.matrix m) (i * n + i)
  | None => None
  end.

(** The expected run-length of a state with self-transition probability
    [p_self]: the analytic formula [1 / (1 - p_self)]. *)
Definition expectedRunLength (p_self : number) : number := 1 / (1 - p_self).

(** The entry of the product [pi * P] for the column [j]. *)
Fixpoint dot (pi : list number) (entries : list number) (n j : nat) : number :=
  match pi with
  | [] => 0
  | x :: pi' => x * nth j entries 0 + dot pi' (skipn n entries) n j
  end.

(** [pi] is a stationary distribution of the matrix: [pi * P = pi],
    entry by entry. *)
Definition stationary (m : UseMarkovChain.MatrixData) (pi : list number) : bool :=
  let n := length (UseMarkovChain.states m) in
  forallb
    (fun j => dot pi (UseMarkovChain.matrix m) n j =? nth j pi 0)
    (seq 0 n).

(** The supported horizon: [1 <= days <= 365]. *)
Definition in_bounds (days : number) : bool := (1 <=? days) && (days <=? 365).

(** The condition [statistics.averageStreaks &&
    statistics.averageStreaks[state]] holds: the statistics supply an
    average streak for the state that counts as one, or the object
    inherits a member of that name. *)
Definition supplied (statistics : StatisticsPanel.Statistics) (s : string) : bool :=
  match StatisticsPanel.averageStreaks statistics with
  | Some streaks =>
      match StatisticsPanel.lookup streaks s with
      | Own v => truthy v
      | Inherited => true
      | Undefined => false
      end
  | None => false
  end.

(** [statistics.averageStreaks[state]] is a member of [Object.prototype]:
    there are average streaks, none of them the state's own, and the
    state has the name of such a member. *)
Definition inherited (statistics : StatisticsPanel.Statistics) (s : string) : bool :=
  match StatisticsPanel.averageStreaks statistics with
  | Some streaks =>
      match streaks !! s with
      | Some _ => false
      | None => existsb (String.eqb s) Object_prototype_names
      end
  | None => false
  end.

(** The days pass the checks of [handleDaysChange]. *)
Definition accepted (d : number) : bool :=
  negb (isNaN d) && negb (d <? 1) && negb (365 <? d).

(** The invariant of the rendered simulation control: while no validation
    error is shown the days are accepted ones, the initial state is one of
    the options, and every simulation was started with accepted days and
    one of the options. *)
Definition sound (w : SimulationControl.World) : Prop :=
  (SimulationControl.validationError (SimulationControl.state w) = None ->
   accepted (SimulationControl.days (SimulationControl.state w)) = true) /\
  In (SimulationControl.initialState (SimulationControl.state w))
     SimulationControl.initialStateOptions /\
  Forall (fun c => accepted (fst c) = true /\
                   In (snd c) SimulationControl.initialStateOptions)
         (SimulationControl.simulated w).

(** The number of entries of a trajectory whose state is [s]. *)
Definition occurrences (s : string) (trajectory : list WeatherTimeline.SimulationDay)
  : nat :=
  count_occ string_dec (map WeatherTimeline.state trajectory) s.

(** The invariant of the application between two events: the selected
    city is one of those offered, nothing is loading, no historical data
    are held, and results that are held go with a loaded matrix, carry
    the selected city and were asked of [runSimulation]. *)
Definition settled (w : App.World) : Prop :=
  In (App.selectedCity (App.state w)) App.cities /\
  App.isLoading (App.state w) = false /\
  App.historicalData (App.state w) = None /\
  forall r, App.simulationResults (App.state w) = Some r ->
    App.transitionMatrix (App.state w) <> None /\
    App.city (App.parameters r) = App.selectedCity (App.state w) /\
    In (App.days (App.parameters r), App.initialState (App.parameters r))
       (App.calls w).

End Spec.

(** ** Fixtures *)

Module Fixtures.
Import JS.

#[local] Open Scope float_scope.

(** A chain in which Sunny keeps with probability one half and whose
    stationary distribution is (1/4, 1/2, 1/4). *)
Definition cycle : UseMarkovChain.MatrixData :=
  {| UseMarkovChain.matrix := [0.5; 0.5; 0; 0; 0.75; 0.25; 0.5; 0; 0.5];
     UseMarkovChain.states := ["Sunny"; "Rainy"; "Cloudy"];
     UseMarkovChain.rows := 3;
     UseMarkovChain.cols := 3 |}.

Definition cycle_statistics : StatisticsPanel.Statistics :=
  {| StatisticsPanel.distribution :=
       {[ "Sunny" := 0.25; "Rainy" := 0.5; "Cloudy" := 0.25 ]};
     StatisticsPanel.steadyState :=
       {[ "Sunny" := 0.25; "Rainy" := 0.5; "Cloudy" := 0.25 ]};
     StatisticsPanel.averageStreaks := None |}.

(** A chain in which Sunny is absorbing; all the mass ends there. *)
Definition absorbing : UseMarkovChain.MatrixData :=
  {| UseMarkovChain.matrix := [1; 0; 0.5; 0.5];
     UseMarkovChain.states := ["Sunny"; "Rainy"];
     UseMarkovChain.rows := 2;
     UseMarkovChain.cols := 2 |}.

Definition absorbing_statistics : StatisticsPanel.Statistics :=
  {| StatisticsPanel.distribution := {[ "Sunny" := 1; "Rainy" := 0 ]};
     StatisticsPanel.steadyState := {[ "Sunny" := 1; "Rainy" := 0 ]};
     StatisticsPanel.averageStreaks := None |}.

(** Statistics with a state that has the name of a member of
    [Object.prototype], and average streaks without an entry for it. *)
Definition constructor_statistics : StatisticsPanel.Statistics :=
  {| StatisticsPanel.distribution := {[ "constructor" := 1 ]};
     StatisticsPanel.steadyState := {[ "constructor" := 1 ]};
     StatisticsPanel.averageStreaks := Some ∅ |}.

(** A matrix over another alphabet. *)
Definition alpine : UseMarkovChain.MatrixData :=
  {| UseMarkovChain.matrix := [0.5; 0.5; 0.25; 0.75];
     UseMarkovChain.states := ["Sunny"; "Snowy"];
     UseMarkovChain.rows := 2;
     UseMarkovChain.cols := 2 |}.

(** A report of the hook's type. *)
Definition report : UseMarkovChain.Statistics :=
  let p := {| UseMarkovChain.sunny := 0.25;
              UseMarkovChain.rainy := 0.5;
              UseMarkovChain.cloudy := 0.25 |} in
  {| UseMarkovChain.steady_state := p;
     UseMarkovChain.distribution := p;
     UseMarkovChain.average_streaks :=
       {| UseMarkovChain.sunny := 2;
          UseMarkovChain.rainy := 4;
          UseMarkovChain.cloudy := 2 |} |}.

(** A module whose engine has no state and that answers with the
    fixtures. *)
Definition canned : UseMarkovChain.WASMModule unit :=
  {| UseMarkovChain.init_markov_engine := mret tt;
     UseMarkovChain.process_weather_data := fun _ => mret cycle;
     UseMarkovChain.run_simulation := fun _ _ => throw (VString "Simulation failed");
     UseMarkovChain.get_statistics := mret (UseMarkovChain.Statistics_object report) |}.

Definition canned_core : UseMarkovChain.RustCore unit :=
  {| UseMarkovChain.default := mret tt;
     UseMarkovChain.exports := canned |}.

(** The simulator over a two-state chain, with two entropy sources. *)
Definition two_state : Simulator.Chain :=
  {| Simulator.chain_states := ["Sunny"; "Rainy"];
     Simulator.chain_rows := [[0.5; 0.5]; [0.25; 0.75]] |}.

Definition engine_with (rnd : nat -> number) : Simulator.Engine :=
  {| Simulator.context := Some two_state;
     Simulator.entropy := rnd;
     Simulator.drawn := O;
     Simulator.clock := 0 |}.

Definition simulator_module : UseMarkovChain.WASMModule Simulator.Engine :=
  Simulator.wasm (fun _ => throw VOther) (throw VOther).

Definition ready_hook : UseMarkovChain.Hook Simulator.Engine :=
  {| UseMarkovChain.wasmModule := Some simulator_module;
     UseMarkovChain.isReady := true;
     UseMarkovChain.error := None |}.

Definition world_with (rnd : nat -> number) : UseMarkovChain.World Simulator.Engine :=
  {| UseMarkovChain.hook := ready_hook;
     UseMarkovChain.engine := engine_with rnd;
     UseMarkovChain.calls := [(UseMarkovChain.Default, false);
                              (UseMarkovChain.InitMarkovEngine, false)] |}.

(** An engine without state whose statistics are those of the chain
    [cycle], behind the aggregator, and the hook with that module
    ready. *)
Definition measured_steady_state : gmap string number :=
  {[ "Sunny" := 0.25; "Rainy" := 0.5; "Cloudy" := 0.25 ]}.

Definition measured_distribution : gmap string number :=
  {[ "Sunny" := 0.5; "Rainy" := 0.5 ]}.

Definition measured_streaks : gmap string number :=
  {[ "Sunny" := 2; "Rainy" := 4; "Cloudy" := 2 ]}.

Definition measured
  : completion (gmap string number * gmap string number * gmap string number) :=
  Normal (measured_steady_state, measured_distribution, measured_streaks).

Definition aggregator_module : UseMarkovChain.WASMModule unit :=
  Aggregator.wasm unit (fun _ => measured)
    (fun _ => throw VOther) (fun _ _ => throw VOther).

Definition aggregator_hook : UseMarkovChain.Hook unit :=
  {| UseMarkovChain.wasmModule := Some aggregator_module;
     UseMarkovChain.isReady := true;
     UseMarkovChain.error := None |}.

(** The hook before the module is loaded, and with the canned module
    ready. *)
Definition loading_hook : UseMarkovChain.Hook unit :=
  UseMarkovChain.hook (UseMarkovChain.initial tt).

Definition canned_hook : UseMarkovChain.Hook unit :=
  {| UseMarkovChain.wasmModule := Some canned;
     UseMarkovChain.isReady := true;
     UseMarkovChain.error := None |}.

(** A response of the weather API. *)
Definition response : UseWeatherAPI.WeatherAPIResponse :=
  {| UseWeatherAPI.location_name := "Mumbai";
     UseWeatherAPI.lat := 19.125;
     UseWeatherAPI.lon := 72.875;
     UseWeatherAPI.forecastday :=
       [ {| UseWeatherAPI.date := "2024-01-01";
            UseWeatherAPI.condition_text := "Sunny";
            UseWeatherAPI.avgtemp_c := 25 |};
         {| UseWeatherAPI.date := "2024-01-02";
            UseWeatherAPI.condition_text := "Light rain";
            UseWeatherAPI.avgtemp_c := 24 |} ] |}.

(** The data fetcher before it processed anything. *)
Definition idle_fetcher : DataFetcher.World :=
  {| DataFetcher.isProcessing := false;
     DataFetcher.processingError := None;
     DataFetcher.calls := [] |}.

(** The application with a matrix and the results of an earlier
    simulation. *)
Definition earlier_results : App.SimulationResults :=
  {| App.predictions :=
       [ {| UseMarkovChain.day := 0; UseMarkovChain.state := "Sunny";
            UseMarkovChain.timestamp := 0 |} ];
     App.parameters :=
       {| App.days := 1; App.initialState := "Sunny"; App.city := "Mumbai" |} |}.

Definition app_with_results : App.World :=
  {| App.state :=
       {| App.selectedCity := "Mumbai"; App.historicalData := None;
          App.transitionMatrix := Some cycle;
          App.simulationResults := Some earlier_results;
          App.isLoading := false; App.error := None |};
     App.calls := [(1, "Sunny")] |}.

Definition snowy_day : WeatherTimeline.SimulationDay :=
  {| WeatherTimeline.day := 0;
     WeatherTimeline.state := "Snowy";
     WeatherTimeline.timestamp := None |}.

Definition three_days : list WeatherTimeline.SimulationDay :=
  [ {| WeatherTimeline.day := 0; WeatherTimeline.state := "Sunny";
       WeatherTimeline.timestamp := Some 0 |};
    {| WeatherTimeline.day := 1; WeatherTimeline.state := "Rainy";
       WeatherTimeline.timestamp := Some 86400 |};
    {| WeatherTimeline.day := 2; WeatherTimeline.state := "Sunny";
       WeatherTimeline.timestamp := Some 172800 |} ].

End Fixtures.

(** ** components/StateTransitionDiagram.tsx *)

Module StateTransitionDiagram.
Import JS.

#[local] Open Scope float_scope.

Definition getEdgeThickness (probability : number) : number :=
  Math_max 1 (probability * 8).

Definition getEdgeOpacity (probability : number) : number :=
  Math_max 0.2 probability.

(** What is drawn for a transition, the positions apart (they are
    computed with [Math.cos], [Math.sin] and [Math.atan2]): whether it is
    a self-loop, the stroke width, the opacity, the label
    [probability.toFixed(2)], and the names [states[fromIndex]] and
    [states[toIndex]] that hovering reports. *)
Record Edge : Type := {
  fromIndex : nat;
  toIndex : nat;
  edge_probability : number;
  selfLoop : bool;
  strokeWidth : number;
  opacity : number;
  label : string;
  hoverFrom : option string;
  hoverTo : option string }.

Definition edge (states : list string) (fromIndex toIndex : nat)
  (probability : number) : Edge :=
  {| fromIndex := fromIndex;
     toIndex := toIndex;
     edge_probability := probability;
     selfLoop := Nat.eqb fromIndex toIndex;
     strokeWidth := getEdgeThickness probability;
     opacity := getEdgeOpacity probability;
     label := toFixed 2 probability;
     hoverFrom := nth_error states fromIndex;
     hoverTo := nth_error states toIndex |}.

(** The edges of a row: none for a probability that [=== 0]. *)
Fixpoint rowEdges (states : list string) (fromIndex toIndex : nat)
  (row : list number) : list Edge :=
  match row with
  | [] => []
  | probability :: row' =>
      (if probability =? 0 then []
       else [edge states fromIndex toIndex probability])
      ++ rowEdges states fromIndex (S toIndex) row'
  end.

Fixpoint matrixEdges (states : list string) (fromIndex : nat)
  (matrix : list (list number)) : list Edge :=
  match matrix with
  | [] => []
  | row :: matrix' =>
      rowEdges states fromIndex 0 row ++ matrixEdges states (S fromIndex) matrix'
  end.

Definition edges (matrix : list (list number)) (states : list string) : list Edge :=
  matrixEdges states 0 matrix.

End StateTransitionDiagram.

(** ** components/WASMErrorBoundary.tsx *)

Module WASMErrorBoundary.
Import JS.

(** The state of the component; an [Error] is kept as its message. *)
Record State : Type := {
  hasError : bool;
  error : option string }.

(** The state, the errors logged and the reloads of the page. *)
Record World : Type := {
  state : State;
  logged : list string;
  reloads : nat }.

Definition initial : World :=
  {| state := {| hasError := false; error := None |};
     logged := [];
     reloads := O |}.

Definition getDerivedStateFromError (err : string) : State :=
  {| hasError := true; error := Some err |}.

(** An error thrown below the boundary: React sets the derived state and
    calls [componentDidCatch], which logs. *)
Definition caught (err : string) : M World unit :=
  modify (fun w =>
    {| state := getDerivedStateFromError err;
       logged := logged w ++ [err];
       reloads := reloads w |}).

Definition handleReset : M World unit :=
  modify (fun w =>
    {| state := {| hasError := false; error := None |};
       logged := logged w;
       reloads := S (reloads w) |}).

(** What [render] shows: the fallback with the message of the error, if
    there is one, or the children. *)
Inductive Rendered : Type :=
| Fallback (message : option string)
| Children.

Definition render (s : State) : Rendered :=
  if hasError s then Fallback (error s) else Children.

(** What happens to the boundary: a child throws, or the user presses
    "Reload Application". *)
Inductive Event : Type :=
| Caught (err : string)
| Reset.

Definition dispatch (e : Event) : M World unit :=
  match e with
  | Caught err => caught err
  | Reset => handleReset
  end.

Definition interact (es : list Event) (w : World) : World :=
  fold_left (fun w e => snd (dispatch e w)) es w.

End WASMErrorBoundary.

(* ===================================================================== *)
(** * Part II: the properties *)
(* ===================================================================== *)

(** ** Rounding *)

Module RoundingFacts.

(** The binary64 operations round as the Standard Library specifies
    ([binary_round_aux]). Rounding a mantissa that is not negative gives a
    zero, a finite number or an infinity, never a NaN; so subtraction and
    division give a NaN only in the cases the standard names. *)

Lemma shr_1_nonneg (mrs : shr_record) : 0 <= shr_m mrs -> 0 <= shr_m (shr_1 mrs).
Proof.
  destruct mrs as [m r s]. cbn [shr_m].
  destruct m as [|[p|p|]|[p|p|]]; cbn; lia.
Qed.

Lemma iter_shr_1_nonneg (p : positive) :
  forall mrs, 0 <= shr_m mrs -> 0 <= shr_m (SpecFloat.iter_pos shr_1 p mrs).
Proof.
  induction p as [p IH|p IH|]; intros mrs H; cbn [SpecFloat.iter_pos].
  - apply IH, IH, shr_1_nonneg, H.
  - apply IH, IH, H.
  - apply shr_1_nonneg, H.
Qed.

Lemma shr_nonneg (mrs : shr_record) (e n : Z) :
  0 <= shr_m mrs -> 0 <= shr_m (fst (shr mrs e n)).
Proof.
  intros H. unfold shr. destruct n as [|p|p]; cbn [fst]; try exact H.
  apply iter_shr_1_nonneg, H.
Qed.

Lemma shr_fexp_nonneg (m e : Z) (l : location) :
  0 <= m -> 0 <= shr_m (fst (shr_fexp prec emax m e l)).
Proof.
  intros H. unfold shr_fexp. apply shr_nonneg.
  destruct l as [|[]]; exact H.
Qed.

Lemma round_nearest_even_nonneg (m : Z) (l : location) :
  0 <= m -> 0 <= round_nearest_even m l.
Proof.
  intros H. destruct l as [|[]]; cbn; try exact H; [|lia].
  destruct (Z.even m); lia.
Qed.

Lemma binary_round_aux_not_nan (sx : bool) (mx ex : Z) (lx : location) :
  0 <= mx -> binary_round_aux prec emax sx mx ex lx <> S754_nan.
Proof.
  intros H. unfold binary_round_aux.
  pose proof (shr_fexp_nonneg mx ex lx H) as H1.
  destruct (shr_fexp prec emax mx ex lx) as [mrs' e']. cbn [fst] in H1.
  pose proof (shr_fexp_nonneg
                (round_nearest_even (shr_m mrs') (loc_of_shr_record mrs')) e' loc_Exact
                (round_nearest_even_nonneg _ _ H1)) as H2.
  destruct (shr_fexp prec emax
              (round_nearest_even (shr_m mrs') (loc_of_shr_record mrs')) e' loc_Exact)
    as [mrs'' e'']. cbn [fst] in H2.
  destruct (shr_m mrs'') as [|m|m]; [discriminate| |lia].
  destruct (e'' <=? emax - prec); discriminate.
Qed.

Lemma binary_normalize_not_nan (m e : Z) (szero : bool) :
  binary_normalize prec emax m e szero <> S754_nan.
Proof.
  unfold binary_normalize, binary_round.
  destruct m as [|m|m]; [discriminate| |].
  - destruct (shl_align m e _) as [mz ez]. apply binary_round_aux_not_nan. lia.
  - destruct (shl_align m e _) as [mz ez]. apply binary_round_aux_not_nan. lia.
Qed.

Lemma SFdiv_core_binary_nonneg (m1 m2 : positive) (e1 e2 : Z) :
  0 <= fst (fst (SFdiv_core_binary prec emax (Z.pos m1) e1 (Z.pos m2) e2)).
Proof.
  unfold SFdiv_core_binary.
  set (s := _ - _ - _).
  set (m' := match s with Z.pos _ => Z.shiftl (Z.pos m1) s | 0 => Z.pos m1 | Z.neg _ => 0 end).
  assert (Hm' : 0 <= m').
  { subst m'. destruct s; try lia. apply Z.shiftl_nonneg. lia. }
  pose proof (Z.div_pos m' (Z.pos m2) Hm' ltac:(lia)) as Hq.
  unfold Z.div in Hq.
  destruct (Z.div_eucl m' (Z.pos m2)) as [q r]. exact Hq.
Qed.

(** The quotient of a finite number that is not zero by a number that is
    not NaN is not NaN. *)
Lemma SFdiv_finite_not_nan (s : bool) (m : positive) (e : Z) (y : spec_float) :
  y <> S754_nan -> SFdiv prec emax (S754_finite s m e) y <> S754_nan.
Proof.
  intros Hy. destruct y as [sy|sy| |sy my ey]; cbn [SFdiv];
    [discriminate | discriminate | contradiction |].
  pose proof (SFdiv_core_binary_nonneg m my e ey) as H.
  destruct (SFdiv_core_binary prec emax (Z.pos m) e (Z.pos my) ey) as [[mz ez] lz].
  apply binary_round_aux_not_nan. exact H.
Qed.

(** The difference of a finite number and a number that is not NaN is not
    NaN. *)
Lemma SFsub_finite_not_nan (s : bool) (m : positive) (e : Z) (y : spec_float) :
  y <> S754_nan -> SFsub prec emax (S754_finite s m e) y <> S754_nan.
Proof.
  intros Hy. destruct y as [sy|sy| |sy my ey]; cbn [SFsub];
    [discriminate | discriminate | contradiction |].
  apply binary_normalize_not_nan.
Qed.

Lemma not_nan_is_nan (x : float) : Prim2SF x <> S754_nan -> PrimFloat.is_nan x = false.
Proof.
  intros H. unfold PrimFloat.is_nan. rewrite FloatAxioms.eqb_spec. unfold SFeqb.
  destruct (Prim2SF x) as [s|s| |s m e]; cbn; try reflexivity; [destruct s; reflexivity| |].
  - contradiction.
  - destruct s; rewrite Z.compare_refl, Pos.compare_cont_refl; reflexivity.
Qed.

End RoundingFacts.

(** ** Comparisons of numbers *)

Module NumberFacts.
Import JS.
#[local] Open Scope float_scope.

Lemma SFcompare_antisym (x y : spec_float) :
  SFcompare y x = option_map CompOpp (SFcompare x y).
Proof.
  destruct x as [sx|sx| |sx mx ex], y as [sy|sy| |sy my ey];
    try destruct sx; try destruct sy; cbn; try reflexivity.
  all: rewrite (Z.compare_antisym ex ey), !Pos.compare_cont_spec; cbn.
  all: rewrite (Pos.compare_antisym mx my).
  all: destruct (ex ?= ey)%Z; cbn; try reflexivity.
  all: destruct (mx ?= my)%positive; reflexivity.
Qed.

Lemma SFcompare_None (x y : spec_float) :
  SFcompare x y = None -> x = S754_nan \/ y = S754_nan.
Proof.
  destruct x as [sx|sx| |sx mx ex], y as [sy|sy| |sy my ey]; cbn;
    intros H; try discriminate; auto.
Qed.

Lemma is_nan_false (x : float) :
  PrimFloat.is_nan x = false -> Prim2SF x <> S754_nan.
Proof.
  unfold PrimFloat.is_nan. rewrite FloatAxioms.eqb_spec. intros H E.
  rewrite E in H. discriminate.
Qed.

(** Among numbers that are not NaN, [x < y] is the negation of [y <= x]. *)
Lemma ltb_negb_leb (x y : number) :
  isNaN x = false -> isNaN y = false -> (x <? y) = negb (y <=? x).
Proof.
  intros Hx%is_nan_false Hy%is_nan_false.
  rewrite FloatAxioms.ltb_spec, FloatAxioms.leb_spec. unfold SFltb, SFleb.
  rewrite (SFcompare_antisym (Prim2SF x) (Prim2SF y)).
  destruct (SFcompare (Prim2SF x) (Prim2SF y)) as [[]|] eqn:E; cbn; try reflexivity.
  apply SFcompare_None in E. tauto.
Qed.

(** A number above zero is truthy. *)
Lemma positive_truthy (p : number) : (0 <? p) = true -> truthy p = true.
Proof.
  unfold truthy, PrimFloat.is_zero, PrimFloat.is_nan.
  rewrite FloatAxioms.ltb_spec, !FloatAxioms.eqb_spec. unfold SFltb, SFeqb.
  change (Prim2SF 0) with (S754_zero false).
  destruct (Prim2SF p) as [s|s| |s m e]; cbn; try discriminate.
  - destruct s; [discriminate | reflexivity].
  - destruct s; [discriminate | intros _].
    rewrite Z.compare_refl, Pos.compare_cont_refl. reflexivity.
Qed.

(** Two numbers that [===] tells apart are different. *)
Lemma eqb_false_neq (x y : number) : (x =? y) = false -> isNaN x = false -> x <> y.
Proof.
  intros Hne Hnan Heq. subst y.
  unfold isNaN, PrimFloat.is_nan in Hnan. rewrite Hne in Hnan. discriminate.
Qed.

(** [1 / (1 - p)] is not NaN unless [p] is. *)
Lemma expectedRunLength_not_nan (p : number) :
  isNaN p = false -> isNaN (Spec.expectedRunLength p) = false.
Proof.
  intros Hp%is_nan_false.
  apply RoundingFacts.not_nan_is_nan. unfold Spec.expectedRunLength.
  rewrite FloatAxioms.div_spec, FloatAxioms.sub_spec.
  change (Prim2SF 1) with (S754_finite false 4503599627370496 (-52)).
  apply RoundingFacts.SFdiv_finite_not_nan, RoundingFacts.SFsub_finite_not_nan, Hp.
Qed.

(** A truthy number is not NaN. *)
Lemma truthy_not_nan (x : number) : truthy x = true -> isNaN x = false.
Proof.
  unfold truthy, isNaN. intros H%negb_true_iff.
  apply orb_false_iff in H as [_ H]. exact H.
Qed.

(** [v || 0] is not NaN. *)
Lemma or_else_zero_not_nan (v : option number) : isNaN (or_else v 0) = false.
Proof.
  unfold or_else. destruct v as [x|]; [|reflexivity].
  destruct (truthy x) eqn:E; [apply truthy_not_nan, E | reflexivity].
Qed.

End NumberFacts.

(** ** The statistics panel *)

Module StatisticsPanelFacts.
Import JS StatisticsPanel.
#[local] Open Scope float_scope.

Lemma lookup_own (o : gmap string number) (s : string) (v : number) :
  o !! s = Some v -> lookup o s = Own v.
Proof. intros H. unfold lookup. rewrite H. reflexivity. Qed.

(** Without a supplied streak, and without an inherited member in its
    place, the panel falls back on its estimate, which it computes from
    the entry of [steadyState]. *)
Lemma calculateAverageStreak_estimate (statistics : Statistics) (s : string) :
  Spec.supplied statistics s = false ->
  calculateAverageStreak statistics s =
    Days match lookup (steadyState statistics) s with
         | Own v =>
             let selfProb := or_else (Some v) 0 in
             if 0 <? selfProb then 1 / (1 - selfProb) else 1
         | _ => 1
         end.
Proof.
  unfold Spec.supplied, calculateAverageStreak.
  destruct (averageStreaks statistics) as [streaks|].
  - destruct (lookup streaks s) as [v| |].
    + intros ->. destruct (lookup (steadyState statistics) s); reflexivity.
    + discriminate.
    + intros _. destruct (lookup (steadyState statistics) s); reflexivity.
  - intros _. destruct (lookup (steadyState statistics) s); reflexivity.
Qed.

(** For a positive entry [p] of [steadyState] the estimate is
    [1 / (1 - p)]. *)
Lemma estimate_of_steady_state (statistics : Statistics) (s : string) (p : number) :
  Spec.supplied statistics s = false ->
  steadyState statistics !! s = Some p ->
  (0 <? p) = true ->
  calculateAverageStreak statistics s = Days (Spec.expectedRunLength p).
Proof.
  intros Hs Hp Hpos.
  rewrite calculateAverageStreak_estimate by exact Hs.
  rewrite (lookup_own _ _ _ Hp). cbn zeta. unfold or_else.
  rewrite (NumberFacts.positive_truthy p Hpos), Hpos. reflexivity.
Qed.

(** The streak of an own key of [steadyState] is among those of the
    cards. *)
Lemma streaks_lookup (statistics : Statistics) (s : string) (p : number) :
  steadyState statistics !! s = Some p ->
  map_imap (fun state _ => Some (calculateAverageStreak statistics state))
    (steadyState statistics) !! s
  = Some (calculateAverageStreak statistics s).
Proof. intros Hp. rewrite map_lookup_imap, Hp. reflexivity. Qed.

(** The cards, when the render does not throw: the card of an own key of
    [steadyState] shows the average streak with two decimals. When it
    throws, the streak of one of the keys is an inherited member. *)
Lemma expectedConsecutiveDays_lookup (statistics : Statistics) (s : string) (p v : number) :
  steadyState statistics !! s = Some p ->
  calculateAverageStreak statistics s = Days v ->
  match expectedConsecutiveDays statistics with
  | Normal cards => cards !! s = Some (toFixed 2 v)
  | Throw _ =>
      exists k, is_Some (steadyState statistics !! k) /\
                calculateAverageStreak statistics k = Member
  end.
Proof.
  intros Hp Hv. unfold expectedConsecutiveDays. cbn zeta.
  destruct (bool_decide_reflect
              (map_Forall (fun _ streak => is_member streak = false)
                 (map_imap
                    (fun state _ => Some (calculateAverageStreak statistics state))
                    (steadyState statistics)))) as [Hall|Hnot].
  - rewrite lookup_omap, (streaks_lookup statistics s p Hp), Hv. reflexivity.
  - apply map_not_Forall in Hnot; [|intros ? ?; apply _].
    destruct Hnot as (k & streak & Hk & Hm).
    rewrite map_lookup_imap in Hk.
    destruct (steadyState statistics !! k) as [q|] eqn:Eq; [|discriminate].
    cbn in Hk. injection Hk as <-. exists k. split; [eauto|].
    destruct (calculateAverageStreak statistics k); [|reflexivity].
    exfalso. apply Hm. reflexivity.
Qed.

(** X5. The average streak of the panel is never NaN. It is a member of
    [Object.prototype], which is no number, exactly when there are
    average streaks, none of them the state's own, and the state has the
    name of such a member. In every other case it is a number that is not
    NaN: a supplied streak that is NaN is passed over, a steady-state
    entry that is NaN counts as 0, and the formula gives an infinity, not
    a NaN, where it divides by zero. *)
Theorem calculateAverageStreak_never_NaN (statistics : Statistics) (s : string) :
  match calculateAverageStreak statistics s with
  | Days v => isNaN v = false /\ Spec.inherited statistics s = false
  | Member => Spec.inherited statistics s = true
  end.
Proof.
  assert (Hestimate :
            isNaN match lookup (steadyState statistics) s with
                  | Own v =>
                      let selfProb := or_else (Some v) 0 in
                      if 0 <? selfProb then 1 / (1 - selfProb) else 1
                  | _ => 1
                  end = false).
  { destruct (lookup (steadyState statistics) s) as [v| |]; try reflexivity.
    cbn zeta. destruct (0 <? or_else (Some v) 0); [|reflexivity].
    apply NumberFacts.expectedRunLength_not_nan, NumberFacts.or_else_zero_not_nan. }
  unfold calculateAverageStreak, Spec.inherited, lookup in *.
  destruct (averageStreaks statistics) as [streaks|]; [|split; [exact Hestimate | reflexivity]].
  destruct (streaks !! s) as [v|].
  - destruct (truthy v) eqn:Hv.
    + split; [apply NumberFacts.truthy_not_nan, Hv | reflexivity].
    + split; [exact Hestimate | reflexivity].
  - destruct (existsb (String.eqb s) Object_prototype_names); [reflexivity|].
    split; [exact Hestimate | reflexivity].
Qed.

(** The streak of a state named [constructor], when the average streaks
    have no entry for it, is the inherited member, and the render of the
    cards throws. *)
Lemma inherited_member_is_returned :
  Spec.inherited Fixtures.constructor_statistics "constructor" = true /\
  calculateAverageStreak Fixtures.constructor_statistics "constructor" = Member /\
  expectedConsecutiveDays Fixtures.constructor_statistics
  = Throw (VError "avgStreak.toFixed is not a function").
Proof. split; [reflexivity | split; [reflexivity|]]. vm_compute. reflexivity. Qed.

(** C1. The expected run-length of a state is [1 / (1 - p_self)] for the
    diagonal entry [p_self] of the transition matrix. The panel computes
    it from the steady-state probability instead: in the chain [cycle]
    Sunny has the self-transition probability 0.5 and the stationary
    probability 0.25, no average streak is supplied, and the panel reports
    [1 / (1 - 0.25)], which is not the 2.0 of the formula. *)
Theorem calculateAverageStreak_reads_steady_state :
  Spec.selfTransition Fixtures.cycle "Sunny" = Some 0.5 /\
  Spec.stationary Fixtures.cycle [0.25; 0.5; 0.25] = true /\
  steadyState Fixtures.cycle_statistics !! "Sunny" = Some 0.25 /\
  Spec.supplied Fixtures.cycle_statistics "Sunny" = false /\
  calculateAverageStreak Fixtures.cycle_statistics "Sunny" = Days (1 / (1 - 0.25)) /\
  Spec.expectedRunLength 0.5 = 2 /\
  calculateAverageStreak Fixtures.cycle_statistics "Sunny"
    <> Days (Spec.expectedRunLength 0.5).
Proof.
  assert (Hread : calculateAverageStreak Fixtures.cycle_statistics "Sunny"
                  = Days (Spec.expectedRunLength 0.25)).
  { apply estimate_of_steady_state; reflexivity. }
  repeat split; try reflexivity.
  rewrite Hread. intros H.
  apply (NumberFacts.eqb_false_neq (Spec.expectedRunLength 0.25)
           (Spec.expectedRunLength 0.5)); [reflexivity | reflexivity | congruence].
Qed.

(** C2, as the specification states it, fails: for the absorbing chain,
    whose steady state puts probability 1 on Sunny, the panel reports the
    IEEE value [Infinity] and prints it as such, with no sentinel. *)
Lemma absorbing_state_reports_Infinity :
  Spec.selfTransition Fixtures.absorbing "Sunny" = Some 1 /\
  Spec.stationary Fixtures.absorbing [1; 0] = true /\
  calculateAverageStreak Fixtures.absorbing_statistics "Sunny" = Days infinity /\
  streakText Fixtures.absorbing_statistics "Sunny" = Normal "Infinity" /\
  expectedConsecutiveDays Fixtures.absorbing_statistics
  = Normal {[ "Sunny" := "Infinity"; "Rainy" := "1.00" ]}.
Proof.
  split; [reflexivity | split; [reflexivity | split; [|split]]].
  - apply (estimate_of_steady_state _ _ 1); reflexivity.
  - reflexivity.
  - vm_compute. reflexivity.
Qed.

(** C2, amended. When the probability that the panel uses for a state is
    exactly 1 and the condition on the average streaks does not hold for
    it (none is supplied, and none is inherited under its name), the
    expected run-length is the IEEE value [+Infinity], which is not NaN,
    and [toFixed(2)] prints it as "Infinity": the value is a number and
    there is no sentinel. That text is what the card of the state shows;
    the cards are not rendered only when the streak of some state is an
    inherited member of [Object.prototype]. *)
Theorem unit_probability_gives_Infinity (statistics : Statistics) (s : string) :
  Spec.supplied statistics s = false ->
  steadyState statistics !! s = Some 1 ->
  calculateAverageStreak statistics s = Days infinity /\
  isNaN infinity = false /\
  streakText statistics s = Normal "Infinity" /\
  match expectedConsecutiveDays statistics with
  | Normal cards => cards !! s = Some "Infinity"
  | Throw _ =>
      exists k, is_Some (steadyState statistics !! k) /\
                calculateAverageStreak statistics k = Member
  end.
Proof.
  intros Hs Hp.
  assert (H : calculateAverageStreak statistics s = Days infinity).
  { rewrite (estimate_of_steady_state statistics s 1 Hs Hp); reflexivity. }
  split; [exact H | split; [reflexivity | split]].
  - unfold streakText. rewrite H. reflexivity.
  - apply (expectedConsecutiveDays_lookup statistics s 1 infinity Hp H).
Qed.

Lemma unit_probability_gives_Infinity_witness :
  expectedConsecutiveDays Fixtures.absorbing_statistics
  = Normal {[ "Sunny" := "Infinity"; "Rainy" := "1.00" ]} /\
  calculateAverageStreak Fixtures.absorbing_statistics "Sunny" = Days infinity /\
  isNaN infinity = false /\
  streakText Fixtures.absorbing_statistics "Sunny" = Normal "Infinity" /\
  match expectedConsecutiveDays Fixtures.absorbing_statistics with
  | Normal cards => cards !! "Sunny" = Some "Infinity"
  | Throw _ =>
      exists k, is_Some (steadyState Fixtures.absorbing_statistics !! k) /\
                calculateAverageStreak Fixtures.absorbing_statistics k = Member
  end.
Proof.
  split; [vm_compute; reflexivity|].
  apply (unit_probability_gives_Infinity Fixtures.absorbing_statistics "Sunny");
    reflexivity.
Defined.

End StatisticsPanelFacts.

(** ** The simulation control *)

Module SimulationControlFacts.
Import JS SimulationControl Spec.
#[local] Open Scope float_scope.

(** What the submit handler does, by its guard. *)
Lemma handleRunSimulation_run (w : World) :
  handleRunSimulation w =
    if (days (state w) <? 1) || (365 <? days (state w))
    then setValidationError (Some "Days must be between 1 and 365") w
    else (Normal tt,
          {| state := {| days := days (state w);
                         initialState := initialState (state w);
                         validationError := None |};
             simulated := simulated w ++ [(days (state w), initialState (state w))] |}).
Proof.
  unfold handleRunSimulation, gets, mbind, M_bind. cbn.
  destruct ((days (state w) <? 1) || (365 <? days (state w))); reflexivity.
Qed.

(** For a number that is not NaN the guard is the bound of the
    specification. *)
Lemma guard_in_bounds (d : number) :
  isNaN d = false ->
  (d <? 1) || (365 <? d) = negb (Spec.in_bounds d).
Proof.
  intros Hd. unfold Spec.in_bounds.
  rewrite (NumberFacts.ltb_negb_leb d 1), (NumberFacts.ltb_negb_leb 365 d)
    by (exact Hd || reflexivity).
  destruct (1 <=? d), (d <=? 365); reflexivity.
Qed.

(** X1. When the days are a number other than NaN, the submit handler
    calls [onSimulate], once and with the days and the initial state of
    the component, exactly when [1 <= days <= 365]; otherwise it records
    the validation error and starts no simulation. *)
Lemma handleRunSimulation_numeric (w : World) :
  isNaN (days (state w)) = false ->
  let w' := snd (handleRunSimulation w) in
  if Spec.in_bounds (days (state w))
  then simulated w' = (simulated w ++ [(days (state w), initialState (state w))])%list
       /\ validationError (state w') = None
  else simulated w' = simulated w
       /\ validationError (state w') = Some "Days must be between 1 and 365".
Proof.
  intros Hd. cbn zeta. rewrite handleRunSimulation_run, (guard_in_bounds _ Hd).
  destruct (Spec.in_bounds (days (state w))); cbn; split; reflexivity.
Qed.

(** *** What the rendered control lets through *)

Lemma sound_initial : sound initial.
Proof.
  split; [reflexivity | split].
  - left. reflexivity.
  - constructor.
Qed.

(** What a change of the days input does. *)
Lemma handleDaysChange_run (text : string) (w : World) :
  snd (handleDaysChange text w) =
    {| state :=
         {| days := parseInt text;
            initialState := initialState (state w);
            validationError :=
              if isNaN (parseInt text) then Some "Please enter a valid number"
              else if parseInt text <? 1 then Some "Days must be at least 1"
              else if 365 <? parseInt text then Some "Days cannot exceed 365"
              else None |};
       simulated := simulated w |}.
Proof.
  unfold handleDaysChange, mbind, M_bind, setDays, setValidationError, modify.
  cbn beta iota.
  destruct (isNaN (parseInt text)); [reflexivity|].
  destruct (parseInt text <? 1); [reflexivity|].
  destruct (365 <? parseInt text); reflexivity.
Qed.

Lemma sound_handleDaysChange (text : string) (w : World) :
  sound w -> sound (snd (handleDaysChange text w)).
Proof.
  intros (Hv & Hi & Hs). rewrite handleDaysChange_run.
  split; [|split; assumption]. cbn [state days validationError].
  unfold accepted.
  destruct (isNaN (parseInt text)); [discriminate|].
  destruct (parseInt text <? 1); [discriminate|].
  destruct (365 <? parseInt text); [discriminate|]. reflexivity.
Qed.

Lemma sound_click (p : Props) (w : World) :
  sound w -> sound (snd (click p w)).
Proof.
  intros (Hv & Hi & Hs).
  unfold click, gets, mbind, M_bind, isDisabled. cbn.
  destruct (disabled p); cbn; [split; [|split]; assumption|].
  destruct (isSimulating p); cbn; [split; [|split]; assumption|].
  destruct (validationError (state w)) as [e|] eqn:Ee.
  - rewrite bool_decide_true by discriminate. cbn.
    split; [|split]; try assumption. rewrite Ee. discriminate.
  - rewrite bool_decide_false by (intros H; apply H; reflexivity).
    specialize (Hv eq_refl).
    rewrite handleRunSimulation_run.
    pose proof Hv as Ha. unfold accepted in Ha.
    apply andb_true_iff in Ha as [Ha H365].
    apply andb_true_iff in Ha as [_ H1].
    apply negb_true_iff in H1, H365. rewrite H1, H365. cbn.
    split; [intros _; exact Hv | split; [exact Hi|]].
    apply Forall_app. split; [exact Hs|].
    constructor; [|constructor]. split; assumption.
Qed.

Lemma sound_dispatch (e : Event) (w : World) :
  possible e -> sound w -> sound (snd (dispatch e w)).
Proof.
  destruct e as [text|value|p]; cbn [dispatch possible]; intros He Hw.
  - apply sound_handleDaysChange, Hw.
  - destruct Hw as (Hv & Hi & Hs). split; [exact Hv | split; [exact He | exact Hs]].
  - apply sound_click, Hw.
Qed.

Lemma sound_interact (es : list Event) (w : World) :
  Forall possible es -> sound w -> sound (interact es w).
Proof.
  unfold interact. revert w.
  induction es as [|e es IH]; intros w Hes Hw; cbn; [exact Hw|].
  inversion Hes as [|? ? He Hes']; subst.
  apply IH; [exact Hes'|]. apply sound_dispatch; assumption.
Qed.



(** The handler on the initial state of the component, 30 days from
    Sunny. *)
Lemma handleRunSimulation_numeric_witness :
  simulated (snd (handleRunSimulation initial)) = [(30, "Sunny")] /\
  validationError (state (snd (handleRunSimulation initial))) = None.
Proof.
  exact (handleRunSimulation_numeric initial eq_refl).
Defined.

(** X2. Whatever the user does to the rendered control, every simulation
    it starts has days that passed the checks of [handleDaysChange], the
    one for NaN included, and one of the offered initial states: the
    button is disabled while a validation error is shown. *)
Theorem rendered_control_starts_accepted_simulations (es : list Event) :
  Forall possible es ->
  forall d s, In (d, s) (simulated (interact es initial)) ->
    isNaN d = false /\ (d <? 1) = false /\ (365 <? d) = false /\
    In s weatherStates.
Proof.
  intros Hes d s Hin.
  destruct (sound_interact es initial Hes sound_initial) as (_ & _ & Hsim).
  rewrite List.Forall_forall in Hsim.
  destruct (Hsim (d, s) Hin) as [Hd Hs]. cbn [fst snd] in Hd, Hs.
  unfold accepted in Hd.
  apply andb_true_iff in Hd as [Hd H365].
  apply andb_true_iff in Hd as [Hnan H1].
  apply negb_true_iff in Hnan, H1, H365.
  repeat split; assumption.
Qed.

(** The input is emptied and the disabled button is clicked, then 7 days
    are entered and the button is clicked again. *)
Lemma rendered_control_starts_accepted_simulations_witness :
  let p := {| isSimulating := false; disabled := false |} in
  let es := [ChangeDays ""; Click p; ChangeDays "7"; Click p] in
  simulated (interact es initial) = [(7, "Sunny")] /\
  (forall d s, In (d, s) (simulated (interact es initial)) ->
     isNaN d = false /\ (d <? 1) = false /\ (365 <? d) = false /\
     In s weatherStates).
Proof.
  cbn zeta. split; [reflexivity|].
  apply rendered_control_starts_accepted_simulations.
  repeat constructor.
Defined.

End SimulationControlFacts.

(** ** The timeline *)

Module WeatherTimelineFacts.
Import JS WeatherTimeline.
#[local] Open Scope float_scope.

(** Filtering by the state and taking the length counts the entries of
    that state. *)
Lemma filter_length_occurrences (s : string) (trajectory : list SimulationDay) :
  length (List.filter (fun d => String.eqb (state d) s) trajectory)
  = Spec.occurrences s trajectory.
Proof.
  unfold Spec.occurrences.
  induction trajectory as [|d trajectory IH]; [reflexivity|].
  cbn [List.filter map count_occ].
  destruct (String.eqb_spec (state d) s) as [E|E],
           (string_dec (state d) s) as [E'|E']; try contradiction.
  - cbn [length]. rewrite IH. reflexivity.
  - exact IH.
Qed.

(** The card that the summary shows for the state [s]. *)
Lemma summaryStatistics_card (trajectory : list SimulationDay) (s : string) :
  In s (Object_keys stateColors) ->
  In {| card_state := s;
        count := Spec.occurrences s trajectory;
        percentage :=
          toFixed 1 (Number_of_nat (Spec.occurrences s trajectory)
                     / Number_of_nat (length trajectory) * 100) |}
     (summaryStatistics trajectory).
Proof.
  intros Hs. unfold summaryStatistics.
  apply in_map_iff. exists s. split; [|exact Hs].
  rewrite filter_length_occurrences. reflexivity.
Qed.

(** C7, as the specification states it, fails: for a trajectory of one
    Snowy day the state Snowy occurs once, and the summary has a card for
    each of Sunny, Rainy and Cloudy, with the count 0, and none for
    Snowy. The percentage of a card is a text with one decimal: two Sunny
    days of three are shown as 66.7. *)
Lemma summary_has_no_card_for_Snowy :
  Spec.occurrences "Snowy" [Fixtures.snowy_day] = 1%nat /\
  ~ In "Snowy" (map card_state (summaryStatistics [Fixtures.snowy_day])) /\
  summaryStatistics [Fixtures.snowy_day] =
    [ {| card_state := "Sunny"; count := 0; percentage := "0.0" |};
      {| card_state := "Rainy"; count := 0; percentage := "0.0" |};
      {| card_state := "Cloudy"; count := 0; percentage := "0.0" |} ] /\
  summaryStatistics Fixtures.three_days =
    [ {| card_state := "Sunny"; count := 2; percentage := "66.7" |};
      {| card_state := "Rainy"; count := 1; percentage := "33.3" |};
      {| card_state := "Cloudy"; count := 0; percentage := "0.0" |} ].
Proof.
  split; [reflexivity | split; [|split; reflexivity]].
  cbn. intros [H|[H|[H|[]]]]; discriminate.
Qed.

(** C7, amended. For every non-empty trajectory and every state of the
    timeline's palette (Sunny, Rainy, Cloudy) the summary has a card with
    the number of entries of that state as its count and, as its
    percentage, that count divided by the length of the trajectory, times
    100, printed with one decimal; the cards are those of the palette, one
    each. *)
Theorem summary_counts_palette_states
  (trajectory : list SimulationDay) (s : string) :
  trajectory <> [] ->
  In s (Object_keys stateColors) ->
  In {| card_state := s;
        count := Spec.occurrences s trajectory;
        percentage :=
          toFixed 1 (Number_of_nat (Spec.occurrences s trajectory)
                     / Number_of_nat (length trajectory) * 100) |}
     (summaryStatistics trajectory)
  /\ map card_state (summaryStatistics trajectory) = ["Sunny"; "Rainy"; "Cloudy"]
  /\ (forall card, In card (summaryStatistics trajectory) ->
        count card = Spec.occurrences (card_state card) trajectory).
Proof.
  intros _ Hs. split; [apply summaryStatistics_card, Hs | split].
  - reflexivity.
  - intros card Hc. unfold summaryStatistics in Hc.
    apply in_map_iff in Hc as (s' & <- & _). cbn [count card_state].
    apply filter_length_occurrences.
Qed.

Lemma summary_counts_palette_states_witness :
  In {| card_state := "Sunny"; count := 2; percentage := "66.7" |}
     (summaryStatistics Fixtures.three_days).
Proof.
  pose proof (summary_counts_palette_states Fixtures.three_days "Sunny") as H.
  apply H; [discriminate | left; reflexivity].
Defined.

End WeatherTimelineFacts.

(** ** The hook *)

Module UseMarkovChainFacts.
Import JS UseMarkovChain.
#[local] Open Scope list_scope.

Section Wrappers.

Context {Engine : Type}.
Implicit Types (h : Hook Engine) (w : World Engine) (wasm : WASMModule Engine).

Lemma guarded_ready {A} h wasm (c : Call) (f : M Engine A) (fallback : string) w :
  try_catch (invoke c f)
    (fun err => throw (VError (errorMessage err fallback))) w
  = forwarded c f fallback w.
Proof.
  unfold try_catch, invoke, forwarded, throw.
  destruct (f (engine w)) as [[a|err] e]; reflexivity.
Qed.

Lemma processData_ready h wasm jsonData w :
  wasmModule h = Some wasm -> isReady h = true ->
  processData h jsonData w
  = forwarded (ProcessWeatherData jsonData) (process_weather_data wasm jsonData)
      "Failed to process weather data" w.
Proof.
  intros Hm Hr. unfold processData. rewrite Hm, Hr. cbn [negb].
  apply (guarded_ready h wasm).
Qed.

Lemma runSimulation_ready h wasm days initialState w :
  wasmModule h = Some wasm -> isReady h = true ->
  runSimulation h days initialState w
  = forwarded (RunSimulation days initialState)
      (run_simulation wasm days initialState) "Failed to run simulation" w.
Proof.
  intros Hm Hr. unfold runSimulation. rewrite Hm, Hr. cbn [negb].
  apply (guarded_ready h wasm).
Qed.

Lemma getStatistics_ready h wasm w :
  wasmModule h = Some wasm -> isReady h = true ->
  getStatistics h w
  = forwarded GetStatistics (get_statistics wasm) "Failed to get statistics" w.
Proof.
  intros Hm Hr. unfold getStatistics. rewrite Hm, Hr. cbn [negb].
  apply (guarded_ready h wasm).
Qed.

(** A wrapper that finds the module not ready rejects and leaves the
    world as it is: nothing is called and nothing is logged. *)
Lemma processData_not_ready h jsonData w :
  not_ready h ->
  processData h jsonData w = (Throw (VError "WASM module not ready"), w).
Proof.
  unfold processData. intros [Hm|Hr].
  - rewrite Hm. reflexivity.
  - rewrite Hr. destruct (wasmModule h); reflexivity.
Qed.

Lemma runSimulation_not_ready h days initialState w :
  not_ready h ->
  runSimulation h days initialState w = (Throw (VError "WASM module not ready"), w).
Proof.
  unfold runSimulation. intros [Hm|Hr].
  - rewrite Hm. reflexivity.
  - rewrite Hr. destruct (wasmModule h); reflexivity.
Qed.

Lemma getStatistics_not_ready h w :
  not_ready h ->
  getStatistics h w = (Throw (VError "WASM module not ready"), w).
Proof.
  unfold getStatistics. intros [Hm|Hr].
  - rewrite Hm. reflexivity.
  - rewrite Hr. destruct (wasmModule h); reflexivity.
Qed.

Lemma not_ready_dec h : not_ready h \/ (exists wasm, wasmModule h = Some wasm /\ isReady h = true).
Proof.
  unfold not_ready. destruct (wasmModule h) as [wasm|]; [|left; left; reflexivity].
  destruct (isReady h); [right; exists wasm; split; reflexivity | left; right; reflexivity].
Qed.

(** *** The load effect and the log *)

Lemma after_init_snoc (log : list (Call * bool)) (c : Call) (b : bool) :
  after_init log ->
  (is_operation c = true -> In (InitMarkovEngine, false) log) ->
  after_init (log ++ [(c, b)]).
Proof.
  intros Hlog Hc before rest c' b' Heq Hop.
  destruct rest as [|x rest _] using rev_ind.
  - apply app_inj_tail in Heq as [-> E]. inversion E; subst. auto.
  - rewrite app_comm_cons, app_assoc in Heq.
    apply app_inj_tail in Heq as [-> _].
    eapply Hlog; [reflexivity | exact Hop].
Qed.

Lemma after_init_nil : after_init [].
Proof.
  intros before rest c b Heq _. destruct before; discriminate.
Qed.

(** What [loadWASM] does to the world: it logs calls of [default] and
    [init_markov_engine] only, and it leaves the hook not ready unless
    [init_markov_engine] returned. *)
Lemma loadWASM_run (imported : completion (RustCore Engine)) (mounted : bool) w :
  let w' := snd (loadWASM imported mounted w) in
  exists extra,
    calls w' = calls w ++ extra /\
    Forall (fun cb => is_operation (fst cb) = false) extra /\
    (hook w' = hook w \/ isReady (hook w') = false \/
     In (InitMarkovEngine, false) extra).
Proof.
  cbn zeta. unfold loadWASM, try_catch, awaitImport, settle, mbind, M_bind, invoke.
  destruct imported as [core|err]; cbn.
  - destruct (default core (engine w)) as [[[]|err1] e1]; cbn.
    + destruct (init_markov_engine (exports core) e1) as [[[]|err2] e2]; cbn.
      * exists [(Default, false); (InitMarkovEngine, false)].
        split; [|split].
        -- destruct mounted; cbn; rewrite <- app_assoc; reflexivity.
        -- repeat constructor.
        -- right. right. right. left. reflexivity.
      * exists [(Default, false); (InitMarkovEngine, true)].
        split; [|split].
        -- destruct mounted; cbn; rewrite <- app_assoc; reflexivity.
        -- repeat constructor.
        -- destruct mounted; cbn; [right; left; reflexivity | left; reflexivity].
    + exists [(Default, true)].
      split; [|split].
      * destruct mounted; reflexivity.
      * repeat constructor.
      * destruct mounted; cbn; [right; left; reflexivity | left; reflexivity].
  - exists []. split; [|split].
    + destruct mounted; cbn; rewrite app_nil_r; reflexivity.
    + constructor.
    + destruct mounted; cbn; [right; left; reflexivity | left; reflexivity].
Qed.

Lemma after_init_app (log extra : list (Call * bool)) :
  after_init log ->
  Forall (fun cb => is_operation (fst cb) = false) extra ->
  after_init (log ++ extra).
Proof.
  intros Hlog Hextra. revert log Hlog.
  induction Hextra as [|[c b] extra Hc _ IH]; intros log Hlog.
  - rewrite app_nil_r. exact Hlog.
  - change ((c, b) :: extra) with ([(c, b)] ++ extra). rewrite app_assoc.
    apply IH, after_init_snoc; [exact Hlog|].
    cbn in Hc. rewrite Hc. discriminate.
Qed.

(** What a wrapper does to the world: nothing, or one logged call, which
    it makes only from a ready hook state. *)
Lemma forwarded_world {A} h (c : Call) (f : M Engine A) (fallback : string) w :
  hook (snd (forwarded c f fallback w)) = hook w /\
  exists b, calls (snd (forwarded c f fallback w)) = calls w ++ [(c, b)].
Proof.
  unfold forwarded. destruct (f (engine w)) as [r e]. cbn.
  split; [reflexivity | eexists; reflexivity].
Qed.

Lemma settled_log_step w w' hs h (c : Call) :
  settled_log w hs -> In h hs ->
  (w' = w \/
   (isReady h = true /\ hook w' = hook w /\ exists b, calls w' = calls w ++ [(c, b)])) ->
  settled_log w' hs.
Proof.
  intros (Hin & Hready & Hlog) Hh [->|(Hr & Hhook & b & Hcalls)].
  { split; [|split]; assumption. }
  assert (Hinit : In (InitMarkovEngine, false) (calls w)).
  { rewrite List.Forall_forall in Hready. apply (Hready h Hh Hr). }
  split; [|split].
  - rewrite Hhook. exact Hin.
  - rewrite Hcalls. eapply List.Forall_impl; [|exact Hready].
    cbn. intros h' Hh' Hr'. apply in_or_app. left. auto.
  - rewrite Hcalls. apply after_init_snoc; [exact Hlog | intros _; exact Hinit].
Qed.

Lemma run_settled_log w hs : run w hs -> settled_log w hs.
Proof.
  induction 1 as [e|w hs imported mounted Hrun IH
                 |w hs h jsonData Hrun IH Hh
                 |w hs h days initialState Hrun IH Hh
                 |w hs h Hrun IH Hh].
  - split; [left; reflexivity | split].
    + constructor; [discriminate | constructor].
    + apply after_init_nil.
  - destruct IH as (Hin & Hready & Hlog).
    destruct (loadWASM_run imported mounted w) as (extra & Hcalls & Hextra & Hhook).
    set (w' := snd (loadWASM imported mounted w)) in *.
    split; [left; reflexivity | split].
    + constructor.
      * intros Hr. rewrite Hcalls.
        destruct Hhook as [Hsame|[Hfalse|Hinit]].
        -- apply in_or_app. left. rewrite List.Forall_forall in Hready.
           apply (Hready (hook w) Hin). rewrite <- Hsame. exact Hr.
        -- rewrite Hfalse in Hr. discriminate.
        -- apply in_or_app. right. exact Hinit.
      * rewrite Hcalls. eapply List.Forall_impl; [|exact Hready].
        cbn. intros h Hh Hr. apply in_or_app. left. auto.
    + rewrite Hcalls. apply after_init_app; assumption.
  - apply (settled_log_step w _ hs h (ProcessWeatherData jsonData) IH Hh).
    destruct (not_ready_dec h) as [Hn|(wasm & Hm & Hr)].
    + left. rewrite (processData_not_ready h jsonData w Hn). reflexivity.
    + right. rewrite (processData_ready h wasm jsonData w Hm Hr).
      split; [exact Hr | apply (forwarded_world h)].
  - apply (settled_log_step w _ hs h (RunSimulation days initialState) IH Hh).
    destruct (not_ready_dec h) as [Hn|(wasm & Hm & Hr)].
    + left. rewrite (runSimulation_not_ready h days initialState w Hn). reflexivity.
    + right. rewrite (runSimulation_ready h wasm days initialState w Hm Hr).
      split; [exact Hr | apply (forwarded_world h)].
  - apply (settled_log_step w _ hs h GetStatistics IH Hh).
    destruct (not_ready_dec h) as [Hn|(wasm & Hm & Hr)].
    + left. rewrite (getStatistics_not_ready h w Hn). reflexivity.
    + right. rewrite (getStatistics_ready h wasm w Hm Hr).
      split; [exact Hr | apply (forwarded_world h)].
Qed.

(** C9. A call of [processData], [runSimulation] or [getStatistics] from
    a hook state in which the module is not loaded or not ready rejects
    with the [Error] "WASM module not ready" and leaves the world as it
    was, so that no function of the engine is invoked; and in every world
    that a mounted hook reaches, the log has each call of an engine
    operation after an [init_markov_engine] that returned. *)
Theorem not_ready_rejects_without_calling w hs :
  run w hs ->
  (forall h, not_ready h ->
     (forall jsonData,
        processData h jsonData w = (Throw (VError "WASM module not ready"), w)) /\
     (forall days initialState,
        runSimulation h days initialState w
        = (Throw (VError "WASM module not ready"), w)) /\
     getStatistics h w = (Throw (VError "WASM module not ready"), w)) /\
  after_init (calls w).
Proof.
  intros Hrun. split.
  - intros h Hn. split; [|split].
    + intros jsonData. apply processData_not_ready, Hn.
    + intros days initialState. apply runSimulation_not_ready, Hn.
    + apply getStatistics_not_ready, Hn.
  - apply (run_settled_log w hs Hrun).
Qed.

End Wrappers.

(** A hook that loaded the canned module and processed data once; a stale
    closure of the first render still finds the module not ready. *)
Lemma not_ready_rejects_without_calling_witness :
  let w1 := snd (loadWASM (Normal Fixtures.canned_core) true (initial tt)) in
  let w2 := snd (processData (hook w1) "{}" w1) in
  calls w2 = [(Default, false); (InitMarkovEngine, false);
              (ProcessWeatherData "{}", false)] /\
  getStatistics (hook (initial tt)) w2
    = (Throw (VError "WASM module not ready"), w2) /\
  after_init (calls w2).
Proof.
  cbn zeta.
  set (w1 := snd (loadWASM (Normal Fixtures.canned_core) true (initial tt))).
  set (w2 := snd (processData (hook w1) "{}" w1)).
  assert (Hrun : run w2 [hook w1; hook (initial tt)]).
  { apply run_processData; [|left; reflexivity].
    apply (run_load (initial tt) [hook (initial tt)]). apply run_mount. }
  destruct (not_ready_rejects_without_calling w2 _ Hrun) as [Hreject Hlog].
  split; [reflexivity | split; [|exact Hlog]].
  apply (Hreject (hook (initial tt))). left. reflexivity.
Defined.

End UseMarkovChainFacts.

(** ** The simulate operation *)

Module SimulatorFacts.
Import JS UseMarkovChain Simulator.
#[local] Open Scope list_scope.
#[local] Open Scope nat_scope.

(** The states of a walk depend on the draws it takes and on nothing else
    of the entropy source: [n] days take [n - 1] draws. *)
Lemma walk_states (c : Chain) (rnd1 rnd2 : nat -> number) (start1 start2 : number)
  (n : nat) :
  forall (current : string) (k i1 i2 : nat),
    (forall j, j < n - 1 -> rnd1 (i1 + j) = rnd2 (i2 + j)) ->
    map state (walk c rnd1 start1 current k i1 n)
    = map state (walk c rnd2 start2 current k i2 n).
Proof.
  induction n as [|n IH]; intros current k i1 i2 Hdraws; [reflexivity|].
  cbn [walk map state]. f_equal.
  destruct n as [|n']; [reflexivity|].
  assert (H0 : rnd1 i1 = rnd2 i2).
  { specialize (Hdraws 0). rewrite !Nat.add_0_r in Hdraws. apply Hdraws. lia. }
  rewrite H0. apply IH. intros j Hj.
  specialize (Hdraws (S j)). rewrite !Nat.add_succ_r in Hdraws.
  cbn [Nat.add]. apply Hdraws. lia.
Qed.

(** A trajectory has as many days as the horizon asks for and starts in
    the initial state. *)
Lemma walk_length (c : Chain) (rnd : nat -> number) (start : number) (n : nat) :
  forall (current : string) (k i : nat),
    length (walk c rnd start current k i n) = n.
Proof.
  induction n as [|n IH]; intros current k i; [reflexivity|].
  cbn [walk length]. rewrite IH. reflexivity.
Qed.

(** C3, as the specification states it, fails. The simulate operation has
    the parameters [days] and [initialState] and no seed, and the same
    request on the same matrix gives two different trajectories when the
    entropy source of the engine draws differently. *)
Lemma same_request_different_trajectories :
  ~ In "seed" run_simulation_parameters /\
  trajectory_states
    (fst (runSimulation Fixtures.ready_hook 3%float "Sunny"
            (Fixtures.world_with (fun _ => 0.25%float))))
  = Normal ["Sunny"; "Sunny"; "Sunny"] /\
  trajectory_states
    (fst (runSimulation Fixtures.ready_hook 3%float "Sunny"
            (Fixtures.world_with (fun _ => 0.75%float))))
  = Normal ["Sunny"; "Rainy"; "Rainy"].
Proof.
  split; [|split].
  - cbn. intros [H|[H|[]]]; discriminate.
  - vm_compute. reflexivity.
  - vm_compute. reflexivity.
Qed.

(** C3, amended. The simulate operation takes the horizon and the initial
    state and no seed. Two invocations with the same horizon and initial
    state, on the same matrix, return the same state at every day index
    whenever the entropy source of the engine gives the same draws to
    both. *)
Theorem same_draws_same_trajectory
  (process : string -> M Engine MatrixData) (statistics : M Engine Report)
  (h : Hook Engine) (w1 w2 : World Engine) (days : number) (initialState : string) :
  wasmModule h = Some (wasm process statistics) ->
  isReady h = true ->
  context (engine w1) = context (engine w2) ->
  (forall n j, horizon days = Some n -> j < n - 1 ->
     entropy (engine w1) (drawn (engine w1) + j)
     = entropy (engine w2) (drawn (engine w2) + j)) ->
  run_simulation_parameters = ["days"; "initialState"] /\
  trajectory_states (fst (runSimulation h days initialState w1))
  = trajectory_states (fst (runSimulation h days initialState w2)).
Proof.
  intros Hm Hr Hc Hdraws. split; [reflexivity|].
  rewrite !(UseMarkovChainFacts.runSimulation_ready h _ days initialState _ Hm Hr).
  unfold forwarded, wasm. cbn [UseMarkovChain.run_simulation].
  unfold Simulator.run_simulation. rewrite Hc.
  destruct (context (engine w2)) as [c|]; [|reflexivity].
  destruct (index_of initialState (chain_states c)) as [i|]; [|reflexivity].
  destruct (horizon days) as [n|] eqn:Hn; [|reflexivity].
  cbn [fst trajectory_states]. f_equal.
  apply walk_states. intros j Hj. apply (Hdraws n j eq_refl Hj).
Qed.

Lemma same_draws_same_trajectory_witness :
  trajectory_states
    (fst (runSimulation Fixtures.ready_hook 3%float "Sunny"
            (Fixtures.world_with (fun i => if Nat.ltb i 2 then 0.75 else 0)%float)))
  = trajectory_states
      (fst (runSimulation Fixtures.ready_hook 3%float "Sunny"
              (Fixtures.world_with (fun i => if Nat.ltb i 2 then 0.75 else 1)%float))).
Proof.
  apply (same_draws_same_trajectory
           (fun _ => throw VOther) (throw VOther) Fixtures.ready_hook).
  - reflexivity.
  - reflexivity.
  - reflexivity.
  - intros n j Hn Hj. vm_compute in Hn. injection Hn as <-.
    cbn [Fixtures.world_with engine Fixtures.engine_with entropy drawn Nat.add].
    destruct j as [|[|j]]; [reflexivity | reflexivity | lia].
Defined.

End SimulatorFacts.

(** ** The statistics report and the state alphabet *)

Module ReportFacts.
Import JS UseMarkovChain.

(** The keys of a [StateProbabilities] object are the three state names
    of the interface. *)
Lemma StateProbabilities_keys (p : StateProbabilities) :
  dom (StateProbabilities_object p) = ({[ "sunny"; "rainy"; "cloudy" ]} : gset string).
Proof.
  unfold StateProbabilities_object.
  rewrite !dom_insert_L, dom_singleton_L. set_solver.
Qed.

(** The fields of a report of the aggregator. *)
Lemma report_keys (steady_state distribution average_streaks : gmap string number) :
  dom (Aggregator.report steady_state distribution average_streaks)
  = ({[ "steady_state"; "distribution"; "average_streaks" ]} : gset string).
Proof.
  unfold Aggregator.report.
  rewrite !dom_insert_L, dom_singleton_L. set_solver.
Qed.

(** What the panel finds in a report of the aggregator: [distribution],
    and neither [steadyState] nor [averageStreaks]. *)
Lemma panel_reads_of_report
  (steady_state distribution average_streaks : gmap string number) :
  Aggregator.report steady_state distribution average_streaks !! "distribution"
    = Some distribution /\
  Aggregator.report steady_state distribution average_streaks !! "steadyState" = None /\
  Aggregator.report steady_state distribution average_streaks !! "averageStreaks" = None.
Proof.
  unfold Aggregator.report. split; [|split].
  - rewrite lookup_insert_ne by discriminate. apply lookup_insert_eq.
  - rewrite !lookup_insert_ne by discriminate. apply lookup_singleton_ne. discriminate.
  - rewrite !lookup_insert_ne by discriminate. apply lookup_singleton_ne. discriminate.
Qed.

(** The panel reads its prop under [distribution], [steadyState] and
    [averageStreaks], and under no other name: two objects that agree on
    these three are read alike. *)
Lemma readStatistics_fields (o o' : StatisticsPanel.object) :
  o !! "distribution" = o' !! "distribution" ->
  o !! "steadyState" = o' !! "steadyState" ->
  o !! "averageStreaks" = o' !! "averageStreaks" ->
  StatisticsPanel.readStatistics o = StatisticsPanel.readStatistics o'.
Proof.
  intros Hd Hs Ha. unfold StatisticsPanel.readStatistics.
  rewrite Hd, Hs, Ha. reflexivity.
Qed.

(** The panel can read an object exactly when the object has the fields
    [distribution] and [steadyState]. *)
Lemma readStatistics_succeeds (o : StatisticsPanel.object) :
  (exists statistics, StatisticsPanel.readStatistics o = Normal statistics) <->
  is_Some (o !! "distribution") /\ is_Some (o !! "steadyState").
Proof.
  unfold StatisticsPanel.readStatistics.
  destruct (o !! "distribution") as [d|], (o !! "steadyState") as [st|]; split;
    try (intros [statistics H]; discriminate H);
    try (intros [[? H1] [? H2]]; discriminate);
    eauto.
Qed.

(** What a successful call of the wrapper returns is what the function
    of the module returned. *)
Lemma getStatistics_returns {Engine : Type} (h : Hook Engine) (w : World Engine)
  (r : Report) :
  fst (getStatistics h w) = Normal r ->
  exists wasm, wasmModule h = Some wasm /\ isReady h = true /\
               fst (get_statistics wasm (engine w)) = Normal r.
Proof.
  destruct (UseMarkovChainFacts.not_ready_dec h) as [Hn|(wasm & Hm & Hr)].
  - rewrite (UseMarkovChainFacts.getStatistics_not_ready h w Hn). discriminate.
  - rewrite (UseMarkovChainFacts.getStatistics_ready h wasm w Hm Hr).
    unfold forwarded. intros H. exists wasm. split; [exact Hm | split; [exact Hr|]].
    destruct (get_statistics wasm (engine w)) as [[r'|err] e]; [exact H | discriminate H].
Qed.

(** C4, as the specification states it, fails. The report that the hook
    returns has the fields [steady_state], [distribution] and
    [average_streaks]. The statistics panel does not read
    [steady_state]: without that field it does the same; it reads
    [steadyState], which the report does not have, so that on the report
    as it is it throws, and with that field added it reads the
    statistics. *)
Lemma panel_cannot_read_the_report :
  let r := Aggregator.report Fixtures.measured_steady_state
             Fixtures.measured_distribution Fixtures.measured_streaks in
  fst (getStatistics Fixtures.aggregator_hook (initial tt)) = Normal r /\
  r !! "steady_state" = Some Fixtures.measured_steady_state /\
  r !! "steadyState" = None /\
  StatisticsPanel.readStatistics r
  = Throw (VError "Cannot convert undefined or null to object") /\
  StatisticsPanel.readStatistics (delete "steady_state" r)
  = StatisticsPanel.readStatistics r /\
  StatisticsPanel.readStatistics (<[ "steadyState" := ∅ ]> r)
  = Normal {| StatisticsPanel.distribution := Fixtures.measured_distribution;
              StatisticsPanel.steadyState := ∅;
              StatisticsPanel.averageStreaks := None |}.
Proof.
  cbn zeta. split; [reflexivity | split; [reflexivity | split; [reflexivity|]]].
  split; [|split]; vm_compute; reflexivity.
Qed.

(** C4, amended. For every successful call of the get-statistics
    operation the report that the hook returns is the object that the
    engine built, unchanged: an object with exactly the fields
    [steady_state], [distribution] and [average_streaks], each a map from
    state names to numbers. The statistics panel reads its prop under the
    field names [distribution], [steadyState] and [averageStreaks] and no
    others, and needs the first two: in the report as it is it finds
    [distribution], finds neither [steadyState] nor [averageStreaks], and
    throws. *)
Theorem report_fields_and_panel_fields {Engine : Type}
  (statistics :
     Engine -> completion (gmap string number * gmap string number * gmap string number))
  (process : string -> M Engine MatrixData)
  (simulate : number -> string -> M Engine (list SimulationDay))
  (h : Hook Engine) (w : World Engine) (r : Report) :
  wasmModule h = Some (Aggregator.wasm Engine statistics process simulate) ->
  fst (getStatistics h w) = Normal r ->
  (exists steady_state distribution average_streaks,
     statistics (engine w) = Normal (steady_state, distribution, average_streaks) /\
     r = Aggregator.report steady_state distribution average_streaks /\
     r !! "steady_state" = Some steady_state /\
     r !! "distribution" = Some distribution /\
     r !! "average_streaks" = Some average_streaks) /\
  dom r = ({[ "steady_state"; "distribution"; "average_streaks" ]} : gset string) /\
  (r !! "steadyState" = None /\ r !! "averageStreaks" = None) /\
  StatisticsPanel.readStatistics r
  = Throw (VError "Cannot convert undefined or null to object") /\
  (forall o o' : StatisticsPanel.object,
     o !! "distribution" = o' !! "distribution" ->
     o !! "steadyState" = o' !! "steadyState" ->
     o !! "averageStreaks" = o' !! "averageStreaks" ->
     StatisticsPanel.readStatistics o = StatisticsPanel.readStatistics o') /\
  (forall o : StatisticsPanel.object,
     (exists read, StatisticsPanel.readStatistics o = Normal read) <->
     is_Some (o !! "distribution") /\ is_Some (o !! "steadyState")).
Proof.
  intros Hm Hcall.
  destruct (getStatistics_returns h w r Hcall) as (wasm & Hm' & _ & Hr).
  rewrite Hm in Hm'. injection Hm' as <-.
  cbn [get_statistics Aggregator.wasm] in Hr. unfold Aggregator.get_statistics in Hr.
  destruct (statistics (engine w)) as [[[steady_state distribution] average_streaks]|err]
    eqn:Es; [|discriminate Hr].
  cbn in Hr. injection Hr as <-.
  destruct (panel_reads_of_report steady_state distribution average_streaks)
    as (Hd & Hs & Ha).
  split; [|split; [apply report_keys | split; [split; assumption | split; [|split]]]].
  - exists steady_state, distribution, average_streaks.
    split; [reflexivity | split; [reflexivity | split; [|split; [exact Hd|]]]].
    + unfold Aggregator.report. apply lookup_insert_eq.
    + unfold Aggregator.report. rewrite !lookup_insert_ne by discriminate.
      apply lookup_singleton_eq.
  - unfold StatisticsPanel.readStatistics. rewrite Hd, Hs. reflexivity.
  - exact readStatistics_fields.
  - exact readStatistics_succeeds.
Qed.

Lemma report_fields_and_panel_fields_witness :
  exists r,
    fst (getStatistics Fixtures.aggregator_hook (initial tt)) = Normal r /\
    dom r = ({[ "steady_state"; "distribution"; "average_streaks" ]} : gset string) /\
    StatisticsPanel.readStatistics r
    = Throw (VError "Cannot convert undefined or null to object").
Proof.
  destruct (fst (getStatistics Fixtures.aggregator_hook (initial tt))) as [r|err] eqn:E;
    [|discriminate E].
  destruct (report_fields_and_panel_fields (fun _ => Fixtures.measured)
              (fun _ => throw VOther) (fun _ _ => throw VOther)
              Fixtures.aggregator_hook (initial tt) r eq_refl E)
    as (_ & Hdom & _ & Hread & _).
  exists r. split; [reflexivity | split; assumption].
Defined.

(** C6, as the specification states it, fails. Matrix building may give
    the states Sunny and Snowy; the simulation control still offers Sunny,
    Rainy and Cloudy, so that Snowy cannot be chosen and Rainy can, and a
    report has no key for Snowy. *)
Lemma alpine_states_are_not_the_offered_ones :
  states Fixtures.alpine = ["Sunny"; "Snowy"] /\
  SimulationControl.initialStateOptions <> states Fixtures.alpine /\
  ~ In "Snowy" SimulationControl.initialStateOptions /\
  (In "Rainy" SimulationControl.initialStateOptions /\
   ~ In "Rainy" (states Fixtures.alpine)) /\
  StateProbabilities_object (steady_state Fixtures.report) !! "Snowy" = None /\
  StateProbabilities_object (steady_state Fixtures.report) !! "snowy" = None.
Proof.
  split; [reflexivity | split; [discriminate | split; [|split; [split|split]]]].
  - cbn. intros [H|[H|[H|[]]]]; discriminate.
  - right. left. reflexivity.
  - cbn. intros [H|[H|[]]]; discriminate.
  - reflexivity.
  - reflexivity.
Qed.

(** C6, amended. The wrapper of the simulate operation passes any string
    on as the initial state. The simulation control, whatever matrix the
    application holds, offers exactly the three states Sunny, Rainy and
    Cloudy, and every simulation that it starts begins in one of them;
    and the objects of the statistics report have exactly the keys
    [sunny], [rainy] and [cloudy]. *)
Theorem states_are_the_three_named {Engine : Type}
  (h : Hook Engine) (wasm : WASMModule Engine) (w : World Engine)
  (days : number) (initialState : string)
  (es : list SimulationControl.Event) (p : StateProbabilities) :
  wasmModule h = Some wasm -> isReady h = true ->
  Forall SimulationControl.possible es ->
  (exists b, calls (snd (runSimulation h days initialState w))
             = (calls w ++ [(RunSimulation days initialState, b)])%list) /\
  SimulationControl.initialStateOptions = ["Sunny"; "Rainy"; "Cloudy"] /\
  (forall d s,
     In (d, s) (SimulationControl.simulated
                  (SimulationControl.interact es SimulationControl.initial)) ->
     In s ["Sunny"; "Rainy"; "Cloudy"]) /\
  dom (StateProbabilities_object p) = ({[ "sunny"; "rainy"; "cloudy" ]} : gset string).
Proof.
  intros Hm Hr Hes. split; [|split; [reflexivity | split]].
  - rewrite (UseMarkovChainFacts.runSimulation_ready h wasm _ _ _ Hm Hr).
    apply (UseMarkovChainFacts.forwarded_world h).
  - intros d s Hin.
    destruct (SimulationControlFacts.sound_interact es SimulationControl.initial Hes
                SimulationControlFacts.sound_initial) as (_ & _ & Hsim).
    rewrite List.Forall_forall in Hsim. apply (Hsim (d, s) Hin).
  - apply StateProbabilities_keys.
Qed.

Lemma states_are_the_three_named_witness :
  let es := [SimulationControl.ChangeInitialState "Rainy";
             SimulationControl.ChangeDays "7";
             SimulationControl.Click
               {| SimulationControl.isSimulating := false;
                  SimulationControl.disabled := false |}] in
  SimulationControl.simulated
    (SimulationControl.interact es SimulationControl.initial) = [(7%float, "Rainy")] /\
  (forall d s,
     In (d, s) (SimulationControl.simulated
                  (SimulationControl.interact es SimulationControl.initial)) ->
     In s ["Sunny"; "Rainy"; "Cloudy"]).
Proof.
  cbn zeta. split; [reflexivity|].
  apply (states_are_the_three_named
           {| wasmModule := Some Fixtures.canned; isReady := true; error := None |}
           Fixtures.canned (initial tt) 7%float "Snowy" _
           (steady_state Fixtures.report)).
  - reflexivity.
  - reflexivity.
  - constructor; [right; left; reflexivity|]. repeat constructor.
Defined.

End ReportFacts.

(** ** The application and the data fetcher *)

Module AppFacts.
Import JS UseMarkovChain.
#[local] Open Scope list_scope.

(** When [processData] rejects, the data fetcher records the message,
    stops processing, and has called nothing but [processData]. *)
Lemma handleProcessData_rejected
  (JSON_stringify : UseWeatherAPI.WeatherAPIResponse -> string)
  (processData : string -> completion MatrixData)
  (onDataFetched : MatrixData -> completion unit)
  (during : DataFetcher.World -> DataFetcher.World)
  (data : UseWeatherAPI.WeatherAPIResponse) (err : value) (w : DataFetcher.World) :
  processData (JSON_stringify data) = Throw err ->
  (forall x, DataFetcher.calls (during x) = DataFetcher.calls x) ->
  let w' := snd (DataFetcher.handleProcessData JSON_stringify processData
                   onDataFetched during (Some data) w) in
  DataFetcher.processingError w'
    = Some (message_or err "Failed to process weather data") /\
  DataFetcher.isProcessing w' = false /\
  DataFetcher.calls w'
    = DataFetcher.calls w ++ [DataFetcher.ProcessData (JSON_stringify data)].
Proof.
  intros Hreject Hduring. cbn zeta.
  unfold DataFetcher.handleProcessData, try_finally, try_catch,
    DataFetcher.awaitProcessData, settle, mbind, M_bind.
  cbn. rewrite Hreject. cbn. rewrite Hduring. cbn.
  repeat split; reflexivity.
Qed.

(** When [runSimulation] rejects, the application records the message,
    stops loading, and does not write the simulation results. *)
Lemma handleSimulation_rejected
  (runSimulation : number -> string -> completion (list SimulationDay))
  (during : App.World -> App.World)
  (days : number) (initialState : string) (err : value)
  (matrix : MatrixData) (w : App.World) :
  App.transitionMatrix (App.state w) = Some matrix ->
  runSimulation days initialState = Throw err ->
  (forall x, App.simulationResults (App.state (during x))
             = App.simulationResults (App.state x)) ->
  let w' := snd (App.handleSimulation runSimulation during days initialState w) in
  App.error (App.state w') = Some (message_or err "Failed to run simulation") /\
  App.simulationResults (App.state w') = App.simulationResults (App.state w) /\
  App.isLoading (App.state w') = false.
Proof.
  intros Hmatrix Hreject Hduring. cbn zeta.
  unfold App.handleSimulation, try_finally, try_catch,
    App.awaitRunSimulation, settle, gets, mbind, M_bind.
  rewrite Hmatrix. cbn. rewrite Hreject. cbn. rewrite Hduring. cbn.
  repeat split; reflexivity.
Qed.

(** C8. When a wrapped engine call rejects, the calling component records
    the error and leaves the results as they were. If [processData]
    rejects, [DataFetcher] sets the processing error and calls
    [onDataFetched] not at all; if [runSimulation] rejects, the
    [handleSimulation] of [App] sets the error message and leaves
    [simulationResults] as it was. Other handlers may run while the
    promise is pending ([fetching], [simulating]); what is stated is what
    this call does, so they are taken to make no calls of the props and
    no writes of the results of their own. *)
Theorem rejected_call_is_recorded_and_results_kept
  (JSON_stringify : UseWeatherAPI.WeatherAPIResponse -> string)
  (processData : string -> completion MatrixData)
  (onDataFetched : MatrixData -> completion unit)
  (fetching : DataFetcher.World -> DataFetcher.World)
  (data : UseWeatherAPI.WeatherAPIResponse) (err1 : value) (f : DataFetcher.World)
  (runSimulation : number -> string -> completion (list SimulationDay))
  (simulating : App.World -> App.World)
  (days : number) (initialState : string) (err2 : value)
  (matrix : MatrixData) (a : App.World) :
  processData (JSON_stringify data) = Throw err1 ->
  (forall x, DataFetcher.calls (fetching x) = DataFetcher.calls x) ->
  App.transitionMatrix (App.state a) = Some matrix ->
  runSimulation days initialState = Throw err2 ->
  (forall x, App.simulationResults (App.state (simulating x))
             = App.simulationResults (App.state x)) ->
  let f' := snd (DataFetcher.handleProcessData JSON_stringify processData
                   onDataFetched fetching (Some data) f) in
  let a' := snd (App.handleSimulation runSimulation simulating days initialState a) in
  (DataFetcher.processingError f'
     = Some (message_or err1 "Failed to process weather data") /\
   forall m, ~ In (DataFetcher.OnDataFetched m)
                  (skipn (length (DataFetcher.calls f)) (DataFetcher.calls f'))) /\
  (App.error (App.state a') = Some (message_or err2 "Failed to run simulation") /\
   App.simulationResults (App.state a') = App.simulationResults (App.state a)).
Proof.
  intros Hpd Hfetching Hmatrix Hrs Hsimulating. cbn zeta. split.
  - destruct (handleProcessData_rejected JSON_stringify processData onDataFetched
                fetching data err1 f Hpd Hfetching) as (Herr & _ & Hcalls).
    split; [exact Herr|].
    intros m. rewrite Hcalls, skipn_app, skipn_all, Nat.sub_diag. cbn.
    intros [H|[]]. discriminate.
  - destruct (handleSimulation_rejected runSimulation simulating days initialState
                err2 matrix a Hmatrix Hrs Hsimulating) as (Herr & Hres & _).
    split; assumption.
Qed.

(** The data fetcher asks a hook that is still loading, and the
    application asks the canned module, whose simulation throws. *)
Lemma rejected_call_is_recorded_and_results_kept_witness :
  let processData jsonData :=
    fst (processData Fixtures.loading_hook jsonData (initial tt)) in
  let runSimulation days initialState :=
    fst (runSimulation Fixtures.canned_hook days initialState (initial tt)) in
  let f' := snd (DataFetcher.handleProcessData (fun _ => "{}") processData
                   (fun _ => Normal tt) id (Some Fixtures.response)
                   Fixtures.idle_fetcher) in
  let a' := snd (App.handleSimulation runSimulation id 30%float "Sunny"
                   Fixtures.app_with_results) in
  DataFetcher.processingError f' = Some "WASM module not ready" /\
  App.error (App.state a') = Some "Simulation failed" /\
  App.simulationResults (App.state a') = Some Fixtures.earlier_results.
Proof.
  cbn zeta.
  destruct (rejected_call_is_recorded_and_results_kept
              (fun _ => "{}")
              (fun jsonData => fst (processData Fixtures.loading_hook jsonData (initial tt)))
              (fun _ => Normal tt) id Fixtures.response
              (VError "WASM module not ready") Fixtures.idle_fetcher
              (fun days initialState =>
                 fst (runSimulation Fixtures.canned_hook days initialState (initial tt)))
              id 30%float "Sunny" (VError "Simulation failed")
              Fixtures.cycle Fixtures.app_with_results)
    as [[Hf _] [Ha Hres]]; try reflexivity.
  split; [exact Hf | split; [exact Ha | exact Hres]].
Defined.

(** X3. Without a transition matrix [handleSimulation] sets the error
    "Please fetch weather data first" and does nothing else: the engine is
    not asked and [isLoading] and the results stay as they are. *)
Theorem handleSimulation_needs_matrix
  (runSimulation : number -> string -> completion (list SimulationDay))
  (during : App.World -> App.World)
  (days : number) (initialState : string) (w : App.World) :
  App.transitionMatrix (App.state w) = None ->
  let w' := snd (App.handleSimulation runSimulation during days initialState w) in
  App.error (App.state w') = Some "Please fetch weather data first" /\
  App.calls w' = App.calls w /\
  App.isLoading (App.state w') = App.isLoading (App.state w) /\
  App.simulationResults (App.state w') = App.simulationResults (App.state w).
Proof.
  intros Hmatrix. cbn zeta.
  unfold App.handleSimulation, gets, mbind, M_bind.
  rewrite Hmatrix. cbn. repeat split; reflexivity.
Qed.

Lemma handleSimulation_needs_matrix_witness :
  let w' := snd (App.handleSimulation (fun _ _ => Normal []) id 30%float "Sunny"
                   App.initial) in
  App.error (App.state w') = Some "Please fetch weather data first" /\
  App.calls w' = [] /\
  App.isLoading (App.state w') = false /\
  App.simulationResults (App.state w') = None.
Proof.
  exact (handleSimulation_needs_matrix (fun _ _ => Normal []) id 30%float "Sunny"
           App.initial eq_refl).
Defined.

(** X4. When [runSimulation] fulfils, the results are its predictions
    with the days and the initial state of the request and the city that
    was selected when the handler started, whatever happened to the state
    while the promise was pending; and loading is over. *)
Theorem handleSimulation_fulfilled
  (runSimulation : number -> string -> completion (list SimulationDay))
  (during : App.World -> App.World)
  (days : number) (initialState : string) (predictions : list SimulationDay)
  (matrix : MatrixData) (w : App.World) :
  App.transitionMatrix (App.state w) = Some matrix ->
  runSimulation days initialState = Normal predictions ->
  let w' := snd (App.handleSimulation runSimulation during days initialState w) in
  App.simulationResults (App.state w')
  = Some {| App.predictions := predictions;
            App.parameters :=
              {| App.days := days;
                 App.initialState := initialState;
                 App.city := App.selectedCity (App.state w) |} |} /\
  App.isLoading (App.state w') = false.
Proof.
  intros Hmatrix Hfulfil. cbn zeta.
  unfold App.handleSimulation, try_finally, try_catch,
    App.awaitRunSimulation, settle, gets, mbind, M_bind.
  rewrite Hmatrix. cbn. rewrite Hfulfil. cbn.
  split; reflexivity.
Qed.

(** The city is changed to Delhi while the promise is pending; the
    results still carry Mumbai, the city of the request. *)
Lemma handleSimulation_fulfilled_witness :
  let switch w := snd (App.handleCityChange "Delhi" w) in
  let w' := snd (App.handleSimulation (fun _ _ => Normal []) switch 30%float "Rainy"
                   Fixtures.app_with_results) in
  App.selectedCity (App.state w') = "Delhi" /\
  App.simulationResults (App.state w')
  = Some {| App.predictions := [];
            App.parameters :=
              {| App.days := 30%float;
                 App.initialState := "Rainy";
                 App.city := "Mumbai" |} |}.
Proof.
  cbn zeta. split; [reflexivity|].
  apply (handleSimulation_fulfilled (fun _ _ => Normal [])
           (fun w => snd (App.handleCityChange "Delhi" w)) 30%float "Rainy" []
           Fixtures.cycle Fixtures.app_with_results); reflexivity.
Defined.

(** C10. After [handleCityChange] with the city [c] the selected city is
    [c]; the historical data, the transition matrix, the simulation
    results and the error are null; and [isLoading] is as it was. With
    the matrix gone the simulation control is disabled, so that nothing
    built for the previous city is left to simulate from. *)
Theorem handleCityChange_resets (c : string) (w : App.World) :
  let w' := snd (App.handleCityChange c w) in
  fst (App.handleCityChange c w) = Normal tt /\
  App.selectedCity (App.state w') = c /\
  App.historicalData (App.state w') = None /\
  App.transitionMatrix (App.state w') = None /\
  App.simulationResults (App.state w') = None /\
  App.error (App.state w') = None /\
  App.isLoading (App.state w') = App.isLoading (App.state w) /\
  App.calls w' = App.calls w /\
  SimulationControl.disabled (App.simulationControlProps (App.state w')) = true.
Proof.
  cbn zeta.
  unfold App.handleCityChange, App.setSelectedCity, App.setHistoricalData,
    App.setTransitionMatrix, App.setSimulationResults, App.setError, App.set,
    modify, mbind, M_bind.
  cbn. repeat split; reflexivity.
Qed.

End AppFacts.

(** ** The order of numbers *)

Module OrderFacts.
Import JS NumberFacts.
#[local] Open Scope float_scope.

(** A comparison that holds is between numbers that are not NaN. *)
Lemma ltb_not_nan (x y : number) :
  (x <? y) = true -> isNaN x = false /\ isNaN y = false.
Proof.
  rewrite FloatAxioms.ltb_spec. unfold SFltb, isNaN. intros H.
  split; apply RoundingFacts.not_nan_is_nan; intros E; rewrite E in H.
  - discriminate.
  - destruct (Prim2SF x) as [| | |]; discriminate.
Qed.

Lemma ltb_asym (x y : number) : (x <? y) = true -> (y <? x) = false.
Proof.
  rewrite !FloatAxioms.ltb_spec. unfold SFltb.
  rewrite (SFcompare_antisym (Prim2SF x) (Prim2SF y)).
  destruct (SFcompare (Prim2SF x) (Prim2SF y)) as [[]|]; cbn; congruence.
Qed.

(** [x < y] is one way to have [x <= y]. *)
Lemma ltb_leb (x y : number) : (x <? y) = true -> (x <=? y) = true.
Proof.
  rewrite FloatAxioms.ltb_spec, FloatAxioms.leb_spec. unfold SFltb, SFleb.
  destruct (SFcompare (Prim2SF x) (Prim2SF y)) as [[]|]; cbn; congruence.
Qed.

(** Numbers that are not NaN are comparable. *)
Lemma leb_total (x y : number) :
  isNaN x = false -> isNaN y = false -> (x <? y) = false -> (y <=? x) = true.
Proof.
  intros Hx Hy. rewrite FloatAxioms.ltb_spec, FloatAxioms.leb_spec. unfold SFltb, SFleb.
  rewrite (SFcompare_antisym (Prim2SF x) (Prim2SF y)).
  destruct (SFcompare (Prim2SF x) (Prim2SF y)) as [[]|] eqn:E; cbn; try congruence.
  apply SFcompare_None in E as [E|E]; [apply is_nan_false in Hx | apply is_nan_false in Hy];
    contradiction.
Qed.

Lemma leb_refl (x : number) : isNaN x = false -> (x <=? x) = true.
Proof.
  intros Hx. apply leb_total; try assumption.
  destruct (x <? x) eqn:E; [|reflexivity].
  pose proof (ltb_asym _ _ E). congruence.
Qed.

Lemma SFleb_trans (x y z : spec_float) :
  SFleb x y = true -> SFleb y z = true -> SFleb x z = true.
Proof.
  unfold SFleb.
  destruct x as [sx|sx| |sx mx ex], y as [sy|sy| |sy my ey], z as [sz|sz| |sz mz ez];
    cbn; try destruct sx; try destruct sy; try destruct sz; cbn;
    try discriminate; try reflexivity; try (intros; assumption).
  - destruct (Z.compare_spec ex ey), (Z.compare_spec ey ez), (Z.compare_spec ex ez);
      try lia; try discriminate; try reflexivity; subst;
      rewrite ?Pos.compare_cont_spec; unfold Pos.switch_Eq;
      destruct (Pos.compare_spec mx my), (Pos.compare_spec my mz), (Pos.compare_spec mx mz);
      cbn; try lia; try discriminate; try reflexivity.
  - destruct (Z.compare_spec ex ey), (Z.compare_spec ey ez), (Z.compare_spec ex ez);
      try lia; try discriminate; try reflexivity; subst;
      rewrite ?Pos.compare_cont_spec; unfold Pos.switch_Eq;
      destruct (Pos.compare_spec mx my), (Pos.compare_spec my mz), (Pos.compare_spec mx mz);
      cbn; try lia; try discriminate; try reflexivity.
Qed.

Lemma leb_trans (x y z : number) :
  (x <=? y) = true -> (y <=? z) = true -> (x <=? z) = true.
Proof. rewrite !FloatAxioms.leb_spec. apply SFleb_trans. Qed.

(** [Math.min] with a bound that is below the number. *)
Lemma Math_min_above (x bound : number) :
  (bound <? x) = true -> Math_min x bound = bound.
Proof.
  intros H. unfold Math_min.
  destruct (ltb_not_nan _ _ H) as [Hb Hx]. rewrite Hx, Hb. cbn.
  rewrite (ltb_asym _ _ H), H. reflexivity.
Qed.

(** [Math.max] of a number that is not NaN and a lower bound that is
    neither NaN nor a zero. *)
Lemma Math_max_bound (bound x : number) :
  isNaN bound = false -> isNaN x = false ->
  (bound <=? Math_max bound x) = true.
Proof.
  intros Hb Hx. unfold Math_max. rewrite Hb, Hx. cbn.
  destruct (bound <? x) eqn:E1; [apply ltb_leb, E1|].
  destruct (x <? bound) eqn:E2; [apply leb_refl, Hb|].
  destruct (is_negative_zero bound); [|apply leb_refl, Hb].
  apply leb_total; assumption.
Qed.

End OrderFacts.

(** ** Products *)

Module ProductFacts.
Import JS.

(** The product of a number that is not NaN and a finite number that is
    not zero is not NaN. *)
Lemma mul_finite_not_nan (x y : float) (s : bool) (m : positive) (e : Z) :
  Prim2SF y = S754_finite s m e ->
  isNaN x = false -> isNaN (PrimFloat.mul x y) = false.
Proof.
  intros Hy Hx. apply NumberFacts.is_nan_false in Hx.
  apply RoundingFacts.not_nan_is_nan.
  rewrite FloatAxioms.mul_spec. unfold SF64mul, SFmul. rewrite Hy.
  destruct (Prim2SF x) as [sx|sx| |sx mx ex]; try discriminate; try contradiction.
  apply RoundingFacts.binary_round_aux_not_nan. lia.
Qed.

End ProductFacts.

(** ** The weather query *)

Module UseWeatherAPIFacts.
Import JS UseWeatherAPI OrderFacts.
#[local] Open Scope float_scope.
#[local] Open Scope list_scope.

Lemma pow2_overflows (k : nat) : pow2 (1024 + k) = infinity.
Proof.
  induction k as [|k IH].
  - vm_compute. reflexivity.
  - replace (1024 + S k)%nat with (S (1024 + k)) by lia.
    cbn [pow2]. rewrite IH. vm_compute. reflexivity.
Qed.

Lemma delay_above_cap_computed :
  forallb (fun n => 30000 <? 1000 * pow2 n) (seq 5 1019) = true.
Proof. vm_compute. reflexivity. Qed.

Lemma delay_above_cap (n : nat) : (5 <= n)%nat -> (30000 <? 1000 * pow2 n) = true.
Proof.
  intros Hn. destruct (Nat.lt_ge_cases n 1024) as [Hlt|Hge].
  - pose proof delay_above_cap_computed as H.
    rewrite forallb_forall in H. apply H. apply in_seq. lia.
  - replace n with (1024 + (n - 1024))%nat by lia.
    rewrite pow2_overflows. vm_compute. reflexivity.
Qed.

(** X6. The delay before a retry doubles from one second, 1000, 2000,
    4000, 8000 and 16000 milliseconds for the attempts 0 to 4, and is
    30000 milliseconds for every later attempt, also when the power of
    two has overflowed to Infinity. *)
Theorem retryDelay_backoff (attemptIndex : nat) :
  retryDelay attemptIndex =
    if (attemptIndex <=? 4)%nat
    then Number_of_Z (1000 * 2 ^ Z.of_nat attemptIndex)
    else 30000.
Proof.
  destruct (Nat.leb_spec attemptIndex 4) as [H|H].
  - do 5 (destruct attemptIndex as [|attemptIndex]; [vm_compute; reflexivity|]). lia.
  - unfold retryDelay. apply Math_min_above, delay_above_cap. lia.
Qed.

Section Fetch.

Variable apiKey : option string.
Variable encodeURIComponent : string -> string.
Variable dateRange : string * string.
Variable fetch : string -> completion Response.

(** X7. The fetch function resolves, with the data, exactly when the key
    is set and not empty, the city is not empty, the request to the
    history endpoint resolved with a response that is ok, and the body of
    the response could be read as JSON; the data are that body. *)
Theorem fetchWeatherData_resolves (city : string) (urls : list string)
  (data : WeatherAPIResponse) :
  fst (fetchWeatherData apiKey encodeURIComponent dateRange fetch city urls) = Normal data
  <->
  exists key response,
    apiKey = Some key /\ key <> "" /\ city <> "" /\
    fetch (historyURL encodeURIComponent dateRange key city) = Normal response /\
    ok response = true /\
    json response = Normal data.
Proof.
  unfold fetchWeatherData, awaitFetch.
  destruct apiKey as [key|]; cbn [truthy_string negb default].
  2:{ split; [discriminate | intros (? & ? & [=] & _)]. }
  destruct (String.eqb_spec key "") as [Ek|Ek]; cbn [negb].
  { split; [discriminate | intros (? & ? & [= <-] & H & _); contradiction]. }
  destruct (String.eqb_spec city "") as [Ec|Ec]; cbn [negb].
  { split; [discriminate | intros (? & ? & _ & _ & H & _); contradiction]. }
  unfold mbind, M_bind, modify, settle, throw, mret, M_ret.
  cbn.
  destruct (fetch (historyURL encodeURIComponent dateRange key city))
    as [response|err] eqn:Ef; cbn.
  2:{ split; [discriminate | intros (k & r & [= <-] & _ & _ & H & _)].
      rewrite Ef in H. discriminate. }
  destruct (ok response) eqn:Eok; cbn.
  - destruct (json response) as [d|err] eqn:Ej; cbn.
    + split.
      * intros [= <-]. exists key, response. repeat split; assumption.
      * intros (k & r & [= <-] & _ & _ & H & _ & Hj). rewrite Ef in H.
        injection H as <-. rewrite Ej in Hj. exact Hj.
    + split; [discriminate|].
      intros (k & r & [= <-] & _ & _ & H & _ & Hj). rewrite Ef in H.
      injection H as <-. rewrite Ej in Hj. discriminate.
  - split.
    + destruct (status response =? 401); [discriminate|].
      destruct (status response =? 400); [discriminate|].
      destruct (status response =? 429); discriminate.
    + intros (k & r & [= <-] & _ & _ & H & Hok & _). rewrite Ef in H.
      injection H as <-. congruence.
Qed.

(** X8. The fetch function makes at most one request. With a key that is
    set and not empty and a city that is not empty it makes exactly one,
    to the history endpoint with the key, the encoded city and the date
    range, however the request ends; otherwise it makes none and rejects
    with an [Error]. *)
Theorem fetchWeatherData_requests (city : string) (urls : list string) :
  let r := fetchWeatherData apiKey encodeURIComponent dateRange fetch city urls in
  match apiKey with
  | Some key =>
      if negb (String.eqb key "") && negb (String.eqb city "")
      then snd r = urls ++ [historyURL encodeURIComponent dateRange key city]
      else snd r = urls /\ exists message, fst r = Throw (VError message)
  | None => snd r = urls /\ exists message, fst r = Throw (VError message)
  end.
Proof.
  cbn zeta. unfold fetchWeatherData, awaitFetch.
  destruct apiKey as [key|]; cbn [truthy_string negb default].
  2:{ split; [reflexivity | eexists; reflexivity]. }
  destruct (String.eqb key ""); cbn [negb andb].
  { split; [reflexivity | eexists; reflexivity]. }
  destruct (String.eqb city ""); cbn [negb andb].
  { split; [reflexivity | eexists; reflexivity]. }
  unfold mbind, M_bind, modify, settle, throw, mret, M_ret.
  cbn.
  destruct (fetch (historyURL encodeURIComponent dateRange key city))
    as [response|err]; cbn; [|reflexivity].
  destruct (ok response); cbn.
  - destruct (json response); reflexivity.
  - destruct (status response =? 401); [reflexivity|].
    destruct (status response =? 400); [reflexivity|].
    destruct (status response =? 429); reflexivity.
Qed.

End Fetch.

End UseWeatherAPIFacts.

(** ** The load effect, the wrappers and what the application shows *)

Module HookFacts.
Import JS UseMarkovChain.
#[local] Open Scope list_scope.

Section Loading.

Context {Engine : Type}.
Implicit Types (h : Hook Engine) (w : World Engine) (wasm : WASMModule Engine).

(** X9. [loadWASM] never rejects. Found mounted, it makes the hook ready
    exactly when the import resolved and both the initialiser of the
    module and [init_markov_engine] returned: the hook then holds the
    exports and no error. In every other case the hook is not ready and
    holds the message of what was thrown, and the module it held before,
    if any. Found unmounted, it leaves the hook as it is. *)
Theorem loadWASM_outcome (imported : completion (RustCore Engine)) w :
  fst (loadWASM imported true w) = Normal tt /\
  fst (loadWASM imported false w) = Normal tt /\
  hook (snd (loadWASM imported false w)) = hook w /\
  ((exists core e1 e2,
      imported = Normal core /\
      default core (engine w) = (Normal tt, e1) /\
      init_markov_engine (exports core) e1 = (Normal tt, e2) /\
      hook (snd (loadWASM imported true w))
      = {| wasmModule := Some (exports core); isReady := true; error := None |})
   \/
   (exists err,
      (imported = Throw err \/
       (exists core, imported = Normal core /\
          (fst (default core (engine w)) = Throw err \/
           exists e1, default core (engine w) = (Normal tt, e1) /\
             fst (init_markov_engine (exports core) e1) = Throw err))) /\
      hook (snd (loadWASM imported true w))
      = {| wasmModule := wasmModule (hook w); isReady := false;
           error := Some (message_or err "Failed to load WASM module") |})).
Proof.
  unfold loadWASM, try_catch, awaitImport, settle, mbind, M_bind, invoke.
  destruct imported as [core|err]; cbn.
  - destruct (default core (engine w)) as [[[]|err1] e1] eqn:Ed; cbn.
    + destruct (init_markov_engine (exports core) e1) as [[[]|err2] e2] eqn:Ei; cbn.
      * repeat split. left. exists core, e1, e2.
        split; [reflexivity | split; [exact Ed | split; [exact Ei | reflexivity]]].
      * repeat split. right. exists err2. split; [|reflexivity].
        right. exists core. split; [reflexivity|]. right. exists e1.
        split; [exact Ed|]. rewrite Ei. reflexivity.
    + repeat split. right. exists err1. split; [|reflexivity].
      right. exists core. split; [reflexivity|]. left. rewrite Ed. reflexivity.
  - repeat split. right. exists err. split; [left|]; reflexivity.
Qed.

(** X10. What the three wrappers reject with is always an [Error]: a
    string or another value thrown by the module is wrapped. *)
Theorem wrappers_reject_with_Error h w (jsonData : string) (days : number)
  (initialState : string) (err : value) :
  (fst (processData h jsonData w) = Throw err \/
   fst (runSimulation h days initialState w) = Throw err \/
   fst (getStatistics h w) = Throw err) ->
  exists message, err = VError message.
Proof.
  assert (Hf : forall A (c : Call) (f : M Engine A) fallback,
            fst (forwarded c f fallback w) = Throw err ->
            exists message, err = VError message).
  { intros A c f fallback. unfold forwarded.
    destruct (f (engine w)) as [[a|e] e']; cbn; [discriminate|].
    intros [= <-]. eexists; reflexivity. }
  destruct (UseMarkovChainFacts.not_ready_dec h) as [Hn|(wasm & Hm & Hr)].
  - rewrite (UseMarkovChainFacts.processData_not_ready h jsonData w Hn),
            (UseMarkovChainFacts.runSimulation_not_ready h days initialState w Hn),
            (UseMarkovChainFacts.getStatistics_not_ready h w Hn).
    cbn. intros [[= <-]|[[= <-]|[= <-]]]; eexists; reflexivity.
  - rewrite (UseMarkovChainFacts.processData_ready h wasm jsonData w Hm Hr),
            (UseMarkovChainFacts.runSimulation_ready h wasm days initialState w Hm Hr),
            (UseMarkovChainFacts.getStatistics_ready h wasm w Hm Hr).
    intros [H|[H|H]]; eapply Hf; exact H.
Qed.

(** A hook that is ready holds a module and no error. *)
Lemma ready_run w hs :
  run w hs ->
  isReady (hook w) = true -> wasmModule (hook w) <> None /\ error (hook w) = None.
Proof.
  assert (Hw : forall A h (c : Call) (f : M Engine A) fallback w0,
            hook (snd (forwarded c f fallback w0)) = hook w0).
  { intros A h c f fallback w0. unfold forwarded.
    destruct (f (engine w0)) as [r e]. reflexivity. }
  induction 1 as [e|w hs imported mounted Hrun IH|w hs h jsonData Hrun IH Hin
                  |w hs h days initialState Hrun IH Hin|w hs h Hrun IH Hin].
  - discriminate.
  - destruct mounted.
    + destruct (loadWASM_outcome imported w)
        as (_ & _ & _ & [(core & e1 & e2 & _ & _ & _ & ->)|(err & _ & ->)]); cbn.
      * intros _. split; [discriminate | reflexivity].
      * discriminate.
    + destruct (loadWASM_outcome imported w) as (_ & _ & -> & _). exact IH.
  - destruct (UseMarkovChainFacts.not_ready_dec h) as [Hn|(wasm & Hm & Hr)].
    + rewrite (UseMarkovChainFacts.processData_not_ready h jsonData w Hn). exact IH.
    + rewrite (UseMarkovChainFacts.processData_ready h wasm jsonData w Hm Hr), (Hw _ h).
      exact IH.
  - destruct (UseMarkovChainFacts.not_ready_dec h) as [Hn|(wasm & Hm & Hr)].
    + rewrite (UseMarkovChainFacts.runSimulation_not_ready h days initialState w Hn).
      exact IH.
    + rewrite (UseMarkovChainFacts.runSimulation_ready h wasm days initialState w Hm Hr),
        (Hw _ h).
      exact IH.
  - destruct (UseMarkovChainFacts.not_ready_dec h) as [Hn|(wasm & Hm & Hr)].
    + rewrite (UseMarkovChainFacts.getStatistics_not_ready h w Hn). exact IH.
    + rewrite (UseMarkovChainFacts.getStatistics_ready h wasm w Hm Hr), (Hw _ h).
      exact IH.
Qed.

(** X11. At every point of the life of the hook, [App] shows exactly one
    of the spinner of the loading module, the banner of the module's
    error, and the main content: a hook that is ready holds no error. *)
Theorem App_shows_one_of_three w hs (s : App.State) :
  run w hs ->
  let v := App.render (isReady (hook w)) (error (hook w)) s in
  (App.wasmLoading v = true /\ App.wasmErrorBanner v = None /\
   App.mainContent v = false)
  \/ (App.wasmLoading v = false /\ App.wasmErrorBanner v <> None /\
      App.mainContent v = false)
  \/ (App.wasmLoading v = false /\ App.wasmErrorBanner v = None /\
      App.mainContent v = true).
Proof.
  intros Hrun. cbn zeta. unfold App.render. cbn.
  pose proof (ready_run w hs Hrun) as Hready.
  destruct (isReady (hook w)); cbn.
  - destruct (Hready eq_refl) as [_ He]. right. right. repeat split. exact He.
  - destruct (error (hook w)) as [message|].
    + right. left. repeat split. discriminate.
    + left. repeat split.
Qed.

End Loading.

Lemma wrappers_reject_with_Error_witness :
  fst (getStatistics Fixtures.loading_hook (initial tt))
    = Throw (VError "WASM module not ready") /\
  exists message, VError "WASM module not ready" = VError message.
Proof.
  split; [reflexivity|].
  apply (wrappers_reject_with_Error Fixtures.loading_hook (initial tt) "{}" 30%float
           "Sunny").
  right. right. reflexivity.
Defined.

Lemma App_shows_one_of_three_witness :
  let w := snd (loadWASM (Normal Fixtures.canned_core) true (initial tt)) in
  let v := App.render (isReady (hook w)) (error (hook w)) (App.state App.initial) in
  App.mainContent v = true /\
  ((App.wasmLoading v = true /\ App.wasmErrorBanner v = None /\
    App.mainContent v = false)
   \/ (App.wasmLoading v = false /\ App.wasmErrorBanner v <> None /\
       App.mainContent v = false)
   \/ (App.wasmLoading v = false /\ App.wasmErrorBanner v = None /\
       App.mainContent v = true)).
Proof.
  cbn zeta. split; [reflexivity|].
  set (w := snd (loadWASM (Normal Fixtures.canned_core) true (initial tt))).
  apply (App_shows_one_of_three w [hook w; hook (initial tt)]).
  apply (run_load (initial tt) [hook (initial tt)]). apply run_mount.
Defined.

End HookFacts.

(** ** The data fetcher *)

Module DataFetcherFacts.
Import JS UseMarkovChain UseWeatherAPI DataFetcher.
#[local] Open Scope list_scope.

Section Component.

Variable JSON_stringify : WeatherAPIResponse -> string.
Variable processData : string -> completion MatrixData.
Variable onDataFetched : MatrixData -> completion unit.
Variable during : World -> World.

(** X12. [handleProcessData] never rejects and always ends with
    [isProcessing] false. It calls [processData] once, with the JSON text
    of the data, and [onDataFetched] exactly when that promise resolved,
    with its matrix. What [processData] rejects with, and also what
    [onDataFetched] throws, becomes the processing error. *)
Theorem handleProcessData_settles (d : WeatherAPIResponse) (w : World) :
  let r := handleProcessData JSON_stringify processData onDataFetched during (Some d) w in
  let pending :=
    during {| isProcessing := true; processingError := None;
              calls := calls w ++ [ProcessData (JSON_stringify d)] |} in
  fst r = Normal tt /\
  isProcessing (snd r) = false /\
  calls (snd r)
  = calls pending ++
    match processData (JSON_stringify d) with
    | Normal matrix => [OnDataFetched matrix]
    | Throw _ => []
    end /\
  processingError (snd r)
  = match processData (JSON_stringify d) with
    | Normal matrix =>
        match onDataFetched matrix with
        | Normal _ => processingError pending
        | Throw err => Some (message_or err "Failed to process weather data")
        end
    | Throw err => Some (message_or err "Failed to process weather data")
    end.
Proof.
  cbn zeta.
  unfold handleProcessData, try_finally, try_catch, awaitProcessData,
    callOnDataFetched, record, setIsProcessing, setProcessingError,
    settle, modify, mbind, M_bind.
  cbn.
  destruct (processData (JSON_stringify d)) as [matrix|err]; cbn.
  - destruct (onDataFetched matrix) as [[]|err]; cbn.
    + repeat split; reflexivity.
    + repeat split; reflexivity.
  - repeat split; try reflexivity. rewrite app_nil_r. reflexivity.
Qed.

(** X13. The panel is never empty, and the fetch button and the success
    state are each shown alone; the loading state and the error state are
    shown together when something is loading and there is an error. *)
Theorem panel_is_never_empty (q : Query) (w : World) :
  let v := render q w in
  (fetchButton v = true \/ loadingState v <> None \/ errorState v <> None \/
   successState v = true) /\
  (fetchButton v = true ->
     data q = None /\ loadingState v = None /\ errorState v = None /\
     successState v = false) /\
  (successState v = true ->
     data q <> None /\ loadingState v = None /\ errorState v = None /\
     fetchButton v = false) /\
  (showLoading q w = true -> showError q w = true ->
     loadingState v <> None /\ errorState v <> None).
Proof.
  cbn zeta. unfold render. cbn.
  destruct (data q) as [d|]; destruct (showLoading q w), (showError q w); cbn;
    (split; [|split; [|split]]); try discriminate;
    try (intros _; repeat split; (reflexivity || discriminate));
    try (intros _ _; split; discriminate).
  - right. left. discriminate.
  - right. left. discriminate.
  - right. right. left. discriminate.
  - right. right. right. reflexivity.
  - right. left. discriminate.
  - right. left. discriminate.
  - right. right. left. discriminate.
  - left. reflexivity.
Qed.

(** X14. A processing failure whose message is empty is not shown. When
    [processData] rejects with an [Error] of the empty message, the
    processing error is the empty string, which counts as no error: with
    data and no error of the query the panel shows the success state, and
    [onDataFetched] was not called. *)
Theorem failure_with_empty_message_shows_success
  (d : WeatherAPIResponse) (w : World) :
  processData (JSON_stringify d) = Throw (VError "") ->
  (forall x, calls (during x) = calls x) ->
  isProcessing w = false ->
  let q := {| data := Some d; isLoading := false; error := None |} in
  let w' := snd (effect JSON_stringify processData onDataFetched during q w) in
  processingError w' = Some "" /\
  calls w' = calls w ++ [ProcessData (JSON_stringify d)] /\
  render q w'
  = {| fetchButton := false; loadingState := None; errorState := None;
       successState := true |}.
Proof.
  intros Hreject Hduring Hidle. cbn zeta.
  replace (effect JSON_stringify processData onDataFetched during
             {| data := Some d; isLoading := false; error := None |} w)
    with (handleProcessData JSON_stringify processData onDataFetched during (Some d) w).
  2:{ unfold effect, gets, mbind, M_bind. cbn [data]. rewrite Hidle.
      rewrite bool_decide_true by discriminate. reflexivity. }
  destruct (handleProcessData_settles d w) as (_ & Hp & Hc & He).
  rewrite Hreject in Hc, He. cbn [message_or] in He.
  rewrite app_nil_r, Hduring in Hc. cbn [calls] in Hc.
  split; [exact He | split; [exact Hc|]].
  unfold render, showLoading, showError. cbn [data isLoading error].
  rewrite Hp, He. reflexivity.
Qed.

End Component.

Lemma failure_with_empty_message_shows_success_witness :
  let q := {| data := Some Fixtures.response; isLoading := false; error := None |} in
  let w' := snd (effect (fun _ => "{}") (fun _ => Throw (VError "")) (fun _ => Normal tt)
                   id q Fixtures.idle_fetcher) in
  processingError w' = Some "" /\
  calls w' = calls Fixtures.idle_fetcher ++ [ProcessData "{}"] /\
  render q w'
  = {| fetchButton := false; loadingState := None; errorState := None;
       successState := true |}.
Proof.
  exact (failure_with_empty_message_shows_success (fun _ => "{}")
           (fun _ => Throw (VError "")) (fun _ => Normal tt) id
           Fixtures.response Fixtures.idle_fetcher eq_refl (fun _ => eq_refl) eq_refl).
Defined.

End DataFetcherFacts.

(** ** A session of the application *)

Module AppSessionFacts.
Import JS UseMarkovChain App.
#[local] Open Scope list_scope.

(** What holds of the application between two events. *)
Lemma settled_dispatch (e : Event) (w : World) :
  possible e ->
  Spec.settled w -> Spec.settled (snd (dispatch e w)).
Proof.
  intros He (Hcity & Hload & Hhist & Hres).
  destruct e as [city|matrix|days initialState outcome]; cbn [dispatch possible] in *.
  - split; [exact He | split; [exact Hload | split; [reflexivity|]]].
    cbn. discriminate.
  - split; [exact Hcity | split; [exact Hload | split; [exact Hhist|]]].
    cbn. intros r Hr.
    destruct (Hres r Hr) as (_ & Hc & Hin).
    split; [discriminate | split; assumption].
  - unfold handleSimulation, try_finally, try_catch, awaitRunSimulation, settle,
      gets, mbind, M_bind.
    destruct (transitionMatrix (state w)) as [matrix|] eqn:Em; cbn.
    + destruct outcome as [predictions|err]; cbn.
      * split; [exact Hcity | split; [reflexivity | split; [exact Hhist|]]].
        cbn. intros r [= <-]. cbn. rewrite Em.
        split; [discriminate | split; [reflexivity|]].
        apply in_or_app. right. left. reflexivity.
      * split; [exact Hcity | split; [reflexivity | split; [exact Hhist|]]].
        cbn. intros r Hr. destruct (Hres r Hr) as (Hm & Hc & Hin). rewrite Em.
        split; [discriminate | split; [exact Hc|]].
        apply in_or_app. left. exact Hin.
    + split; [exact Hcity | split; [exact Hload | split; [exact Hhist|]]].
      cbn. rewrite Em. exact Hres.
Qed.

Lemma settled_interact (es : list Event) (w : World) :
  Forall possible es -> Spec.settled w -> Spec.settled (interact es w).
Proof.
  unfold interact. revert w.
  induction es as [|e es IH]; intros w Hes Hw; cbn; [exact Hw|].
  inversion Hes as [|? ? He Hes']; subst.
  apply IH; [exact Hes'|]. apply settled_dispatch; assumption.
Qed.

(** X15. Whatever cities are selected, matrices delivered and
    simulations run, each simulation settling before the next event: the
    selected city is one of the five offered, nothing is loading, and the
    historical data are never set; and results that are held were made
    while a matrix was loaded and one still is, they carry the city that
    is selected, and their days and initial state are those of a call of
    [runSimulation]. *)
Theorem results_belong_to_selected_city (es : list Event) :
  Forall possible es ->
  let s := state (interact es initial) in
  In (selectedCity s) cities /\
  isLoading s = false /\
  historicalData s = None /\
  forall r, simulationResults s = Some r ->
    transitionMatrix s <> None /\
    city (parameters r) = selectedCity s /\
    In (days (parameters r), initialState (parameters r)) (calls (interact es initial)).
Proof.
  intros Hes. apply (settled_interact es initial Hes).
  split; [left; reflexivity | split; [reflexivity | split; [reflexivity|]]].
  cbn. discriminate.
Qed.

Lemma results_belong_to_selected_city_witness :
  let es := [Simulate 7%float "Sunny" (Normal []);
             SelectCity "Delhi";
             DataFetched Fixtures.cycle;
             Simulate 7%float "Rainy" (Normal [])] in
  selectedCity (state (interact es initial)) = "Delhi" /\
  option_map (fun r => city (parameters r))
    (simulationResults (state (interact es initial))) = Some "Delhi" /\
  calls (interact es initial) = [(7%float, "Rainy")].
Proof.
  cbn zeta.
  set (es := [Simulate 7%float "Sunny" (Normal []); SelectCity "Delhi";
              DataFetched Fixtures.cycle; Simulate 7%float "Rainy" (Normal [])]).
  assert (Hes : Forall possible es).
  { constructor; [exact I|]. constructor; [right; left; reflexivity|].
    constructor; [exact I|]. constructor; [exact I | constructor]. }
  destruct (results_belong_to_selected_city es Hes) as (_ & _ & _ & Hres).
  split; [reflexivity | split; [|reflexivity]].
  destruct (simulationResults (state (interact es initial))) as [r|] eqn:Er;
    [|discriminate Er].
  destruct (Hres r eq_refl) as (_ & Hc & _). cbn [option_map]. rewrite Hc. reflexivity.
Defined.

(** X16. The button of the simulation control, as [App] renders it,
    starts a simulation only when a matrix is loaded and no simulation is
    pending; the request that [handleSimulation] then passes to
    [runSimulation] has the days and the initial state of the control,
    and the days are within 1 and 365. *)
Theorem control_click_reaches_runSimulation
  (s : State) (log : list (number * string)) (c : SimulationControl.World)
  (outcome : completion (list SimulationDay)) :
  let c' := snd (SimulationControl.click (simulationControlProps s) c) in
  SimulationControl.simulated c' <> SimulationControl.simulated c ->
  exists d st,
    SimulationControl.simulated c' = SimulationControl.simulated c ++ [(d, st)] /\
    d = SimulationControl.days (SimulationControl.state c) /\
    st = SimulationControl.initialState (SimulationControl.state c) /\
    PrimFloat.ltb d 1 = false /\ PrimFloat.ltb 365 d = false /\
    transitionMatrix s <> None /\ isLoading s = false /\
    calls (snd (dispatch (Simulate d st outcome) {| state := s; calls := log |}))
    = log ++ [(d, st)].
Proof.
  cbn zeta.
  unfold SimulationControl.click, SimulationControl.isDisabled, simulationControlProps,
    gets, mbind, M_bind.
  cbn.
  destruct (transitionMatrix s) as [matrix|] eqn:Em.
  2:{ rewrite bool_decide_true by reflexivity. cbn. intros H. contradiction. }
  rewrite bool_decide_false by discriminate. cbn.
  destruct (isLoading s) eqn:El; cbn; [intros H; contradiction|].
  destruct (bool_decide _); cbn; [intros H; contradiction|].
  rewrite SimulationControlFacts.handleRunSimulation_run.
  destruct (PrimFloat.ltb (SimulationControl.days (SimulationControl.state c)) 1) eqn:E1;
    cbn; [intros H; contradiction|].
  destruct (PrimFloat.ltb 365 (SimulationControl.days (SimulationControl.state c))) eqn:E2;
    cbn; [intros H; contradiction|].
  intros _. eexists _, _. split; [reflexivity|].
  split; [reflexivity | split; [reflexivity|]].
  split; [exact E1 | split; [exact E2 | split; [discriminate | split; [reflexivity|]]]].
  unfold handleSimulation, try_finally, try_catch, awaitRunSimulation, settle,
    gets, mbind, M_bind.
  cbn. rewrite Em. cbn. destruct outcome; reflexivity.
Qed.

Lemma control_click_reaches_runSimulation_witness :
  let s := state Fixtures.app_with_results in
  let c' := snd (SimulationControl.click (simulationControlProps s)
                   SimulationControl.initial) in
  SimulationControl.simulated c' = [(30%float, "Sunny")] /\
  exists d st,
    SimulationControl.simulated c'
      = SimulationControl.simulated SimulationControl.initial ++ [(d, st)] /\
    d = SimulationControl.days (SimulationControl.state SimulationControl.initial) /\
    st = SimulationControl.initialState
           (SimulationControl.state SimulationControl.initial) /\
    PrimFloat.ltb d 1 = false /\ PrimFloat.ltb 365 d = false /\
    transitionMatrix s <> None /\ isLoading s = false /\
    calls (snd (dispatch (Simulate d st (Normal [])) {| state := s; calls := [] |}))
    = [] ++ [(d, st)].
Proof.
  cbn zeta. split; [reflexivity|].
  apply (control_click_reaches_runSimulation (state Fixtures.app_with_results) []
           SimulationControl.initial (Normal [])).
  discriminate.
Defined.

End AppSessionFacts.

(** ** The chart of the timeline *)

Module ChartFacts.
Import JS WeatherTimeline OrderFacts.
#[local] Open Scope float_scope.
#[local] Open Scope list_scope.

Lemma eqb_false_of_neq (a b : string) : a <> b -> String.eqb a b = false.
Proof. intros H. destruct (String.eqb_spec a b); [contradiction | reflexivity]. Qed.

Lemma existsb_eqb_false (k : string) (names : list string) :
  ~ In k names -> existsb (String.eqb k) names = false.
Proof.
  induction names as [|n names IH]; [reflexivity|].
  intros H. cbn. rewrite eqb_false_of_neq, IH; [reflexivity| |].
  - intros Hin. apply H. right. exact Hin.
  - intros E. apply H. left. symmetry. exact E.
Qed.

Lemma existsb_eqb_true (k : string) (names : list string) :
  In k names -> existsb (String.eqb k) names = true.
Proof.
  intros H. apply existsb_exists. exists k. split; [exact H | apply String.eqb_refl].
Qed.

(** X17. The chart keeps the days in their order, with the day and the
    state of each. For a state of the palette the value of the bar is the
    one that [stateToValue] gives the state, at which the Y axis shows
    the name of that state, and the fill of the bar is the color that
    [stateColors] gives the state. For another state the value is 0, where the
    axis shows no name, and the bar has no fill; unless the state has the
    name of a member of [Object.prototype], which is then what the value
    and the fill are. *)
Theorem chart_follows_palette (simulationData : list SimulationDay) (i : nat)
  (item : SimulationDay) :
  nth_error simulationData i = Some item ->
  exists datum,
    nth_error (chartData simulationData) i = Some datum /\
    chart_day datum = day item /\
    chart_state datum = state item /\
    (In (state item) (Object_keys stateColors) ->
       exists v color,
         own stateToValue (state item) = Some v /\
         own stateColors (state item) = Some color /\
         value datum = Num v /\ CustomYAxisTick v = Some (state item) /\
         barFill datum = Own color) /\
    (~ In (state item) (Object_keys stateColors) ->
       if existsb (String.eqb (state item)) Object_prototype_names
       then value datum = Member /\ barFill datum = Inherited
       else value datum = Num 0 /\ CustomYAxisTick 0 = None /\
            barFill datum = Undefined).
Proof.
  intros Hi. unfold chartData. rewrite List.nth_error_map, Hi. cbn [option_map].
  eexists. split; [reflexivity|]. cbn [chart_day chart_state value barFill].
  split; [reflexivity | split; [reflexivity | split]].
  - intros [<-|[<-|[<-|[]]]]; eexists _, _; repeat split; reflexivity.
  - intros Hout. unfold barFill, member. cbn [chart_state].
    assert (Hs : state item <> "Sunny") by (intros E; apply Hout; left; auto).
    assert (Hr : state item <> "Rainy") by (intros E; apply Hout; right; left; auto).
    assert (Hc : state item <> "Cloudy")
      by (intros E; apply Hout; right; right; left; auto).
    cbn [own stateToValue stateColors].
    rewrite !(eqb_false_of_neq _ (state item)) by congruence.
    destruct (existsb _ _); repeat split; reflexivity.
Qed.

(** The second of the three days is rainy: its bar has the value 2 and
    the color of Rainy. *)
Lemma chart_follows_palette_witness :
  exists datum,
    nth_error (chartData Fixtures.three_days) 1 = Some datum /\
    value datum = Num 2 /\
    barFill datum = Own "#3B82F6".
Proof.
  destruct (nth_error Fixtures.three_days 1) as [item|] eqn:E; [|discriminate E].
  destruct (chart_follows_palette Fixtures.three_days 1 item E)
    as (datum & Hd & _).
  exists datum. split; [exact Hd|].
  vm_compute in Hd. injection Hd as <-. split; reflexivity.
Defined.

(** X18. The counts of the three cards of the summary add up to at most
    the number of days, and to exactly that number when, and only when,
    every day has a state of the palette: days of other states are in no
    card. *)
Theorem summary_counts_add_up (simulationData : list SimulationDay) :
  let total := list_sum (map count (summaryStatistics simulationData)) in
  (total <= length simulationData)%nat /\
  (total = length simulationData <->
   Forall (fun d => In (state d) (Object_keys stateColors)) simulationData).
Proof.
  cbn zeta. unfold summaryStatistics. cbn [Object_keys stateColors map fst count list_sum fold_right].
  induction simulationData as [|d data [IHle IHeq]]; cbn [List.filter length].
  - split; [lia | split; [constructor | reflexivity]].
  - destruct (String.eqb_spec (state d) "Sunny") as [E1|E1];
    destruct (String.eqb_spec (state d) "Rainy") as [E2|E2];
    destruct (String.eqb_spec (state d) "Cloudy") as [E3|E3];
      try congruence; cbn [length]; (split; [lia|]).
    + rewrite Forall_cons_iff, <- IHeq. cbn. split; [|lia].
      intros H. split; [left; auto | lia].
    + rewrite Forall_cons_iff, <- IHeq. cbn. split; [|lia].
      intros H. split; [right; left; auto | lia].
    + rewrite Forall_cons_iff, <- IHeq. cbn. split; [|lia].
      intros H. split; [right; right; left; auto | lia].
    + rewrite Forall_cons_iff. cbn. split; [lia|].
      intros [[H|[H|[H|[]]]] _]; congruence.
Qed.

End ChartFacts.

(** ** The key insights of the statistics panel *)

Module InsightFacts.
Import JS StatisticsPanel OrderFacts.
#[local] Open Scope float_scope.
#[local] Open Scope list_scope.

(** The reduction of "Most common state" keeps an entry that none
    exceeds. *)
Lemma fold_greatest (l : list (string * number)) :
  forall a : string * number,
    isNaN (snd a) = false ->
    Forall (fun e => isNaN (snd e) = false) l ->
    exists r,
      fold_left (fun a b : string * number => if snd b <? snd a then a else b) l a = r /\
      In r (a :: l) /\ isNaN (snd r) = false /\
      (snd a <=? snd r) = true /\
      Forall (fun e => (snd e <=? snd r) = true) l.
Proof.
  induction l as [|b l IH]; intros a Ha Hl; cbn [fold_left].
  - exists a. split; [reflexivity|].
    split; [left; reflexivity | split; [exact Ha | split; [apply leb_refl, Ha | constructor]]].
  - inversion Hl as [|? ? Hb Hl']; subst.
    destruct (snd b <? snd a) eqn:E.
    + destruct (IH a Ha Hl') as (r & Er & Hin & Hr & Hle & Hall).
      exists r. split; [exact Er|].
      split; [|split; [exact Hr | split; [exact Hle|]]].
      * destruct Hin as [Hin|Hin]; [left; exact Hin | right; right; exact Hin].
      * constructor; [|exact Hall].
        apply (leb_trans _ (snd a)); [apply ltb_leb, E | exact Hle].
    + destruct (IH b Hb Hl') as (r & Er & Hin & Hr & Hle & Hall).
      exists r. split; [exact Er|].
      split; [|split; [exact Hr | split]].
      * right. exact Hin.
      * apply (leb_trans _ (snd b)); [|exact Hle]. apply leb_total; assumption.
      * constructor; assumption.
Qed.

(** X19. "Most common state" throws a [TypeError] when the steady state
    has no entry. Otherwise, if no probability is NaN, it names a state
    whose probability none of the others exceeds. *)
Theorem mostCommonState_is_greatest (entries : list (string * number)) :
  Forall (fun e => isNaN (snd e) = false) entries ->
  match mostCommonState entries with
  | Normal name =>
      exists p, In (name, p) entries /\
        Forall (fun e => (snd e <=? p) = true) entries
  | Throw err =>
      entries = [] /\ err = VError "Reduce of empty array with no initial value"
  end.
Proof.
  intros Hall. unfold mostCommonState, reduce.
  destruct entries as [|a l]; [split; reflexivity|].
  inversion Hall as [|? ? Ha Hl]; subst.
  destruct (fold_greatest l a Ha Hl) as ([name p] & Er & Hin & _ & Hle & Hrest).
  change (fold_left (fun a b => if snd b <? snd a then a else b) l a)
    with (fold_left (fun a b : string * number => if snd b <? snd a then a else b) l a).
  rewrite Er. exists p. split; [exact Hin|].
  constructor; assumption.
Qed.

Lemma mostCommonState_is_greatest_witness :
  mostCommonState [("Sunny", 0.25); ("Rainy", 0.5); ("Cloudy", 0.25)] = Normal "Rainy" /\
  match mostCommonState [("Sunny", 0.25); ("Rainy", 0.5); ("Cloudy", 0.25)] with
  | Normal name =>
      exists p, In (name, p) [("Sunny", 0.25); ("Rainy", 0.5); ("Cloudy", 0.25)] /\
        Forall (fun e => (snd e <=? p) = true)
          [("Sunny", 0.25); ("Rainy", 0.5); ("Cloudy", 0.25)]
  | Throw err =>
      [("Sunny", 0.25); ("Rainy", 0.5); ("Cloudy", 0.25)] = [] /\
      err = VError "Reduce of empty array with no initial value"
  end.
Proof.
  split; [reflexivity|].
  apply (mostCommonState_is_greatest [("Sunny", 0.25); ("Rainy", 0.5); ("Cloudy", 0.25)]).
  repeat constructor.
Defined.

End InsightFacts.

(** ** The state transition diagram *)

Module DiagramFacts.
Import JS StateTransitionDiagram OrderFacts.
#[local] Open Scope float_scope.
#[local] Open Scope list_scope.

Lemma rowEdges_spec (states : list string) (i : nat) (row : list number) :
  forall (j0 : nat) (e : Edge),
    In e (rowEdges states i j0 row) <->
    exists k p, nth_error row k = Some p /\ (p =? 0) = false /\
                e = edge states i (j0 + k) p.
Proof.
  induction row as [|p row IH]; intros j0 e; cbn [rowEdges].
  - split; [intros [] | intros ([|k] & p & H & _); discriminate].
  - rewrite in_app_iff, IH. split.
    + intros [H|(k & q & Hk & Hq & ->)].
      * destruct (p =? 0) eqn:E; [destruct H|].
        destruct H as [<-|[]]. exists O, p. rewrite Nat.add_0_r. repeat split. exact E.
      * exists (S k), q. rewrite Nat.add_succ_r. repeat split; assumption.
    + intros ([|k] & q & Hk & Hq & ->).
      * injection Hk as ->. left. rewrite Hq, Nat.add_0_r. left. reflexivity.
      * right. exists k, q. rewrite Nat.add_succ_r. repeat split; assumption.
Qed.

Lemma matrixEdges_spec (states : list string) (matrix : list (list number)) :
  forall (i0 : nat) (e : Edge),
    In e (matrixEdges states i0 matrix) <->
    exists k j row p, nth_error matrix k = Some row /\ nth_error row j = Some p /\
                      (p =? 0) = false /\ e = edge states (i0 + k) j p.
Proof.
  induction matrix as [|row matrix IH]; intros i0 e; cbn [matrixEdges].
  - split; [intros [] | intros ([|k] & j & row & p & H & _); discriminate].
  - rewrite in_app_iff, IH, rowEdges_spec. split.
    + intros [(j & p & Hj & Hp & ->)|(k & j & r & p & Hk & Hj & Hp & ->)].
      * exists O, j, row, p. rewrite Nat.add_0_r. repeat split; assumption.
      * exists (S k), j, r, p. rewrite Nat.add_succ_r. repeat split; assumption.
    + intros ([|k] & j & r & p & Hk & Hj & Hp & ->).
      * injection Hk as ->. left. exists j, p. rewrite Nat.add_0_r.
        repeat split; assumption.
      * right. exists k, j, r, p. rewrite Nat.add_succ_r. repeat split; assumption.
Qed.

(** X20. The diagram draws an edge for exactly the entries of the matrix
    that are not zero, a NaN among them: the edge from [i] to [j] is drawn
    when the row [i] has an entry [j] that is not [=== 0], with that
    probability, as a loop when [i] is [j], and hovering it reports the
    names of the states [i] and [j], if there are such. *)
Theorem edges_are_the_nonzero_entries (matrix : list (list number))
  (states : list string) (e : Edge) :
  In e (edges matrix states) <->
  exists i j row p,
    nth_error matrix i = Some row /\ nth_error row j = Some p /\
    (p =? 0) = false /\
    e = {| fromIndex := i; toIndex := j; edge_probability := p;
           selfLoop := Nat.eqb i j;
           strokeWidth := getEdgeThickness p;
           opacity := getEdgeOpacity p;
           label := toFixed 2 p;
           hoverFrom := nth_error states i;
           hoverTo := nth_error states j |}.
Proof.
  unfold edges. rewrite matrixEdges_spec. cbn [Nat.add]. reflexivity.
Qed.

(** X21. An edge is never thinner than 1 nor fainter than 0.2, whatever
    the probability, as long as it is a number. *)
Theorem edge_is_visible (probability : number) :
  isNaN probability = false ->
  (1 <=? getEdgeThickness probability) = true /\
  (0.2 <=? getEdgeOpacity probability) = true.
Proof.
  intros Hp. unfold getEdgeThickness, getEdgeOpacity. split.
  - apply Math_max_bound; [reflexivity|].
    apply (ProductFacts.mul_finite_not_nan probability 8 false 4503599627370496 (-49));
      [reflexivity | exact Hp].
  - apply Math_max_bound; [reflexivity | exact Hp].
Qed.

Lemma edge_is_visible_witness :
  getEdgeThickness 0.125 = 1 /\
  (1 <=? getEdgeThickness 0.125) = true /\ (0.2 <=? getEdgeOpacity 0.125) = true.
Proof.
  split; [reflexivity|]. apply (edge_is_visible 0.125). reflexivity.
Defined.

End DiagramFacts.

(** ** The error boundary *)

Module BoundaryFacts.
Import JS WASMErrorBoundary.
#[local] Open Scope list_scope.

(** The errors caught in a sequence of events, and the number of
    resets. *)
Lemma interact_snoc (es : list Event) (e : Event) (w : World) :
  interact (es ++ [e]) w = snd (dispatch e (interact es w)).
Proof. unfold interact. rewrite fold_left_app. reflexivity. Qed.

(** X22. After any sequence of errors caught and resets, the boundary
    shows the fallback, with the message of the last error, exactly when
    the last event was an error; every error was logged, in order, and
    the page was reloaded once for each reset. *)
Theorem boundary_shows_last_error (es : list Event) :
  let w := interact es initial in
  render (state w)
  = match last es with
    | Some (Caught err) => Fallback (Some err)
    | _ => Children
    end /\
  logged w = flat_map (fun e => match e with Caught err => [err] | Reset => [] end) es /\
  reloads w = length (List.filter (fun e => match e with Reset => true | _ => false end) es).
Proof.
  cbn zeta. induction es as [|e es IH] using rev_ind.
  - repeat split.
  - rewrite interact_snoc, last_snoc, flat_map_app, List.filter_app, length_app.
    destruct IH as (_ & Hl & Hr).
    destruct e as [err|]; cbn; rewrite Hl, Hr.
    + rewrite Nat.add_0_r. repeat split.
    + rewrite app_nil_r. repeat split. lia.
Qed.

End BoundaryFacts.
